(** * jaxlib/gpu/solver.cc: descriptor builders of the GPU dense solvers

    A shallow embedding of the element-type resolver and of the
    [Build*Descriptor] functions, together with the vendor size queries,
    the handle pool and the descriptor packer they call. *)

From Stdlib Require Import ZArith List Ascii String Bool Lia.
From coqutil Require Import Byte Word.LittleEndianList.
Import ListNotations.
Local Open Scope Z_scope.

(* ===================================================================== *)
(** ** C integer conversions *)
(* ===================================================================== *)

(** Conversion to a signed integer type of [w] bits keeps the value
    modulo [2^w]. *)
Definition wrap_signed (w x : Z) : Z := (x + 2 ^ (w - 1)) mod 2 ^ w - 2 ^ (w - 1).

(** [int], [std::int64_t] and [size_t] on the LP64 targets of the file. *)
Definition to_int (x : Z) : Z := wrap_signed 32 x.
Definition to_int64 (x : Z) : Z := wrap_signed 64 x.
Definition to_size_t (x : Z) : Z := x mod 2 ^ 64.

Definition size_t_mul (a b : Z) : Z := (a * b) mod 2 ^ 64.
Definition size_t_add (a b : Z) : Z := (a + b) mod 2 ^ 64.

Definition INT_MIN : Z := - 2 ^ 31.
Definition INT_MAX : Z := 2 ^ 31 - 1.
Definition is_int (x : Z) : Prop := INT_MIN <= x <= INT_MAX.

(** [sizeof] of the element types and of an object pointer. *)
Definition sizeof_float : Z := 4.
Definition sizeof_double : Z := 8.
Definition sizeof_gpuComplex : Z := 8.
Definition sizeof_gpuDoubleComplex : Z := 16.
Definition sizeof_pointer : Z := 8.

(* ===================================================================== *)
(** ** Element types *)
(* ===================================================================== *)

Inductive SolverType : Type := F32 | F64 | C64 | C128.

(** What the resolver reads of a NumPy dtype: [kind()] and [itemsize()]. *)
Record dtype : Type := { kind : ascii; itemsize : Z }.

Inductive gpusolverFillMode_t : Type :=
| GPUSOLVER_FILL_MODE_LOWER
| GPUSOLVER_FILL_MODE_UPPER.

Inductive gpusolverEigMode_t : Type :=
| GPUSOLVER_EIG_MODE_VECTOR
| CUSOLVER_EIG_MODE_NOVECTOR.

(** The build configuration: [JAX_GPU_CUDA] defined or not. *)
Inductive Backend : Type := CUDA | HIP.

(** Element width of a kind, as the [sizeof] the Cholesky builder uses in
    the matching [case]. *)
Definition sizeof_elem (t : SolverType) : Z :=
  match t with
  | F32 => sizeof_float
  | F64 => sizeof_double
  | C64 => sizeof_gpuComplex
  | C128 => sizeof_gpuDoubleComplex
  end.

(* ===================================================================== *)
(** ** Size queries of the vendor library *)
(* ===================================================================== *)

(** One constructor per family of [*_bufferSize] entry points; the first
    argument stands for the S/D/C/Z variant. The handle, the null data
    pointers and the parameter object are left out, the integer and enum
    arguments are kept in the order of the C call. *)
Inductive BufferSizeCall : Type :=
| potrf_bufferSize (t : SolverType) (uplo : gpusolverFillMode_t) (n lda : Z)
| potrfBatched_bufferSize (t : SolverType) (uplo : gpusolverFillMode_t) (n lda b : Z)
| getrf_bufferSize (t : SolverType) (m n lda : Z)
| geqrf_bufferSize (t : SolverType) (m n lda : Z)
| orgqr_bufferSize (t : SolverType) (m n k lda : Z)
| syevd_bufferSize (t : SolverType) (jobz : gpusolverEigMode_t)
    (uplo : gpusolverFillMode_t) (n lda : Z)
| syevj_bufferSize (t : SolverType) (jobz : gpusolverEigMode_t)
    (uplo : gpusolverFillMode_t) (n lda : Z)
| syevjBatched_bufferSize (t : SolverType) (jobz : gpusolverEigMode_t)
    (uplo : gpusolverFillMode_t) (n lda batch : Z)
| gesvd_bufferSize (t : SolverType) (jobu jobvt : ascii) (m n : Z)
| gesvdj_bufferSize (t : SolverType) (jobz : gpusolverEigMode_t)
    (econ m n lda ldu ldv : Z)
| gesvdjBatched_bufferSize (t : SolverType) (jobz : gpusolverEigMode_t)
    (m n lda ldu ldv batch : Z)
| sytrd_bufferSize (t : SolverType) (uplo : gpusolverFillMode_t) (n lda : Z).

Definition gpusolverDnSpotrf_bufferSize := potrf_bufferSize F32.
Definition gpusolverDnDpotrf_bufferSize := potrf_bufferSize F64.
Definition gpusolverDnCpotrf_bufferSize := potrf_bufferSize C64.
Definition gpusolverDnZpotrf_bufferSize := potrf_bufferSize C128.
Definition hipsolverSpotrfBatched_bufferSize := potrfBatched_bufferSize F32.
Definition hipsolverDpotrfBatched_bufferSize := potrfBatched_bufferSize F64.
Definition hipsolverCpotrfBatched_bufferSize := potrfBatched_bufferSize C64.
Definition hipsolverZpotrfBatched_bufferSize := potrfBatched_bufferSize C128.
Definition gpusolverDnSgetrf_bufferSize := getrf_bufferSize F32.
Definition gpusolverDnDgetrf_bufferSize := getrf_bufferSize F64.
Definition gpusolverDnCgetrf_bufferSize := getrf_bufferSize C64.
Definition gpusolverDnZgetrf_bufferSize := getrf_bufferSize C128.
Definition gpusolverDnSgeqrf_bufferSize := geqrf_bufferSize F32.
Definition gpusolverDnDgeqrf_bufferSize := geqrf_bufferSize F64.
Definition gpusolverDnCgeqrf_bufferSize := geqrf_bufferSize C64.
Definition gpusolverDnZgeqrf_bufferSize := geqrf_bufferSize C128.
Definition gpusolverDnSorgqr_bufferSize := orgqr_bufferSize F32.
Definition gpusolverDnDorgqr_bufferSize := orgqr_bufferSize F64.
Definition gpusolverDnCungqr_bufferSize := orgqr_bufferSize C64.
Definition gpusolverDnZungqr_bufferSize := orgqr_bufferSize C128.
Definition gpusolverDnSsyevd_bufferSize := syevd_bufferSize F32.
Definition gpusolverDnDsyevd_bufferSize := syevd_bufferSize F64.
Definition gpusolverDnCheevd_bufferSize := syevd_bufferSize C64.
Definition gpusolverDnZheevd_bufferSize := syevd_bufferSize C128.
Definition gpusolverDnSsyevj_bufferSize := syevj_bufferSize F32.
Definition gpusolverDnDsyevj_bufferSize := syevj_bufferSize F64.
Definition gpusolverDnCheevj_bufferSize := syevj_bufferSize C64.
Definition gpusolverDnZheevj_bufferSize := syevj_bufferSize C128.
Definition gpusolverDnSsyevjBatched_bufferSize := syevjBatched_bufferSize F32.
Definition gpusolverDnDsyevjBatched_bufferSize := syevjBatched_bufferSize F64.
Definition gpusolverDnCheevjBatched_bufferSize := syevjBatched_bufferSize C64.
Definition gpusolverDnZheevjBatched_bufferSize := syevjBatched_bufferSize C128.
Definition gpusolverDnSgesvd_bufferSize := gesvd_bufferSize F32.
Definition gpusolverDnDgesvd_bufferSize := gesvd_bufferSize F64.
Definition gpusolverDnCgesvd_bufferSize := gesvd_bufferSize C64.
Definition gpusolverDnZgesvd_bufferSize := gesvd_bufferSize C128.
Definition cusolverDnSgesvdj_bufferSize := gesvdj_bufferSize F32.
Definition cusolverDnDgesvdj_bufferSize := gesvdj_bufferSize F64.
Definition cusolverDnCgesvdj_bufferSize := gesvdj_bufferSize C64.
Definition cusolverDnZgesvdj_bufferSize := gesvdj_bufferSize C128.
Definition cusolverDnSgesvdjBatched_bufferSize := gesvdjBatched_bufferSize F32.
Definition cusolverDnDgesvdjBatched_bufferSize := gesvdjBatched_bufferSize F64.
Definition cusolverDnCgesvdjBatched_bufferSize := gesvdjBatched_bufferSize C64.
Definition cusolverDnZgesvdjBatched_bufferSize := gesvdjBatched_bufferSize C128.
Definition gpusolverDnSsytrd_bufferSize := sytrd_bufferSize F32.
Definition gpusolverDnDsytrd_bufferSize := sytrd_bufferSize F64.
Definition gpusolverDnChetrd_bufferSize := sytrd_bufferSize C64.
Definition gpusolverDnZhetrd_bufferSize := sytrd_bufferSize C128.

(* ===================================================================== *)
(** ** Statuses and exceptions *)
(* ===================================================================== *)

(** Which external call a failed status comes from. *)
Inductive Callee : Type :=
| SolverHandlePool_Borrow
| gpusolverDnCreateSyevjInfo_call
| cusolverDnCreateGesvdjInfo_call
| bufferSize_call (q : BufferSizeCall).

(** An [absl::Status]: success, a pool with no handle to lend, or a
    failure with the vendor's status code. *)
Inductive Status : Type :=
| OkStatus
| ResourceExhausted
| NotOk (code : Z).

Inductive exception : Type :=
| invalid_argument (np_type : dtype)
    (* "Unsupported dtype %s", py::repr(np_type) *)
| runtime_error (callee : Callee) (status : Status).
    (* thrown by JAX_THROW_IF_ERROR on a failed status *)

Inductive Outcome (A : Type) : Type :=
| Returns (a : A)
| Throws (e : exception).
Arguments Returns {A} a.
Arguments Throws {A} e.

(* ===================================================================== *)
(** ** DtypeToSolverType *)
(* ===================================================================== *)

(** The static table of the resolver. *)
Definition types : list ((ascii * Z) * SolverType) :=
  [ (("f"%char, 4), F32);
    (("f"%char, 8), F64);
    (("c"%char, 8), C64);
    (("c"%char, 16), C128) ].

Definition key_eqb (a b : ascii * Z) : bool :=
  Ascii.eqb (fst a) (fst b) && (snd a =? snd b).

Fixpoint find (key : ascii * Z) (tbl : list ((ascii * Z) * SolverType))
  : option SolverType :=
  match tbl with
  | [] => None
  | (k, v) :: rest => if key_eqb key k then Some v else find key rest
  end.

Definition DtypeToSolverType (np_type : dtype) : Outcome SolverType :=
  match find (kind np_type, itemsize np_type) types with
  | None => Throws (invalid_argument np_type)
  | Some second => Returns second
  end.

(* ===================================================================== *)
(** ** Operation descriptors *)
(* ===================================================================== *)

(** The records the builders fill in, one per operation family, with the
    fields in the order of the brace initialisers of the builders. *)

Record PotrfDescriptor : Type := {
  potrf_type : SolverType;
  potrf_uplo : gpusolverFillMode_t;
  potrf_batch : Z;
  potrf_n : Z;
  potrf_lwork : Z
}.

Record GetrfDescriptor : Type := {
  getrf_type : SolverType;
  getrf_batch : Z;
  getrf_m : Z;
  getrf_n : Z;
  getrf_lwork : Z
}.

Record GeqrfDescriptor : Type := {
  geqrf_type : SolverType;
  geqrf_batch : Z;
  geqrf_m : Z;
  geqrf_n : Z;
  geqrf_lwork : Z
}.

(** [tol] is a [double]; it is kept as its 64-bit pattern. *)
Record CsrlsvqrDescriptor : Type := {
  csrlsvqr_type : SolverType;
  csrlsvqr_n : Z;
  csrlsvqr_nnz : Z;
  csrlsvqr_reorder : Z;
  csrlsvqr_tol : Z
}.

Record OrgqrDescriptor : Type := {
  orgqr_type : SolverType;
  orgqr_batch : Z;
  orgqr_m : Z;
  orgqr_n : Z;
  orgqr_k : Z;
  orgqr_lwork : Z
}.

Record SyevdDescriptor : Type := {
  syevd_type : SolverType;
  syevd_uplo : gpusolverFillMode_t;
  syevd_batch : Z;
  syevd_n : Z;
  syevd_lwork : Z
}.

Record SyevjDescriptor : Type := {
  syevj_type : SolverType;
  syevj_uplo : gpusolverFillMode_t;
  syevj_batch : Z;
  syevj_n : Z;
  syevj_lwork : Z
}.

(** [jobu] and [jobvt] are [signed char]s. *)
Record GesvdDescriptor : Type := {
  gesvd_type : SolverType;
  gesvd_batch : Z;
  gesvd_m : Z;
  gesvd_n : Z;
  gesvd_lwork : Z;
  gesvd_jobu : ascii;
  gesvd_jobvt : ascii
}.

Record GesvdjDescriptor : Type := {
  gesvdj_type : SolverType;
  gesvdj_batch : Z;
  gesvdj_m : Z;
  gesvdj_n : Z;
  gesvdj_lwork : Z;
  gesvdj_jobz : gpusolverEigMode_t;
  gesvdj_econ : Z
}.

Record SytrdDescriptor : Type := {
  sytrd_type : SolverType;
  sytrd_uplo : gpusolverFillMode_t;
  sytrd_batch : Z;
  sytrd_n : Z;
  sytrd_lda : Z;
  sytrd_lwork : Z
}.

(* ===================================================================== *)
(** ** The descriptor packer *)
(* ===================================================================== *)

(** C types of descriptor fields. *)
Inductive ctype : Type := c_int | c_enum | c_schar | c_double.

Definition sizeof (c : ctype) : nat :=
  match c with
  | c_int => 4
  | c_enum => 4
  | c_schar => 1
  | c_double => 8
  end%nat.

(** The integers a field of type [c] can hold. A [double] is carried as
    its bit pattern, an unsigned 64-bit number. *)
Definition representable (c : ctype) (v : Z) : Prop :=
  match c with
  | c_double => 0 <= v < 2 ^ 64
  | _ => - 2 ^ (Z.of_nat (sizeof c) * 8 - 1) <= v < 2 ^ (Z.of_nat (sizeof c) * 8 - 1)
  end.

Definition encode (c : ctype) (v : Z) : list byte := le_split (sizeof c) v.

Definition decode (c : ctype) (bs : list byte) : Z :=
  match c with
  | c_double => le_combine bs
  | _ => wrap_signed (Z.of_nat (sizeof c) * 8) (le_combine bs)
  end.

Fixpoint pack_fields (cs : list ctype) (vs : list Z) : list byte :=
  match cs, vs with
  | c :: cs', v :: vs' => encode c v ++ pack_fields cs' vs'
  | _, _ => []
  end.

(** Reading the fields back; a blob that is too short or too long for the
    layout is refused. *)
Fixpoint unpack_fields (cs : list ctype) (bs : list byte) : option (list Z) :=
  match cs with
  | [] => match bs with [] => Some [] | _ :: _ => None end
  | c :: cs' =>
      if (List.length bs <? sizeof c)%nat then None
      else
        match unpack_fields cs' (skipn (sizeof c) bs) with
        | Some vs => Some (decode c (firstn (sizeof c) bs) :: vs)
        | None => None
        end
  end.

(** Numbering of the enumerations inside a blob. *)
Definition SolverType_to_Z (t : SolverType) : Z :=
  match t with F32 => 0 | F64 => 1 | C64 => 2 | C128 => 3 end.

Definition SolverType_of_Z (z : Z) : option SolverType :=
  match z with
  | 0 => Some F32 | 1 => Some F64 | 2 => Some C64 | 3 => Some C128
  | _ => None
  end.

Definition FillMode_to_Z (u : gpusolverFillMode_t) : Z :=
  match u with GPUSOLVER_FILL_MODE_LOWER => 0 | GPUSOLVER_FILL_MODE_UPPER => 1 end.

Definition FillMode_of_Z (z : Z) : option gpusolverFillMode_t :=
  match z with
  | 0 => Some GPUSOLVER_FILL_MODE_LOWER
  | 1 => Some GPUSOLVER_FILL_MODE_UPPER
  | _ => None
  end.

Definition EigMode_to_Z (j : gpusolverEigMode_t) : Z :=
  match j with CUSOLVER_EIG_MODE_NOVECTOR => 0 | GPUSOLVER_EIG_MODE_VECTOR => 1 end.

Definition EigMode_of_Z (z : Z) : option gpusolverEigMode_t :=
  match z with
  | 0 => Some CUSOLVER_EIG_MODE_NOVECTOR
  | 1 => Some GPUSOLVER_EIG_MODE_VECTOR
  | _ => None
  end.

(** A [signed char] holding a character code. *)
Definition schar_to_Z (c : ascii) : Z := wrap_signed 8 (Z.of_N (N_of_ascii c)).
Definition schar_of_Z (z : Z) : ascii := ascii_of_N (Z.to_N (z mod 2 ^ 8)).

(** A descriptor type: its field layout and the passage between a record
    and the integer values of its fields. *)
Class Descriptor (T : Type) : Type := {
  layout : list ctype;
  to_fields : T -> list Z;
  of_fields : list Z -> option T
}.

(** Modelled from the spec: [PackDescriptor] and [UnpackDescriptor], which
    are declared in jaxlib/kernel_helpers.h and not part of solver.cc. The
    packer serialises the fixed-shape record into a byte blob that carries
    its length, performs no validation and cannot fail; the unpacker is
    its inverse on blobs of the record's size. Fields are laid out in
    declaration order, little-endian. *)
Definition PackDescriptor {T : Type} `{Descriptor T} (descriptor : T) : list byte :=
  pack_fields layout (to_fields descriptor).

Definition UnpackDescriptor {T : Type} `{Descriptor T} (opaque : list byte) : option T :=
  match unpack_fields layout opaque with
  | Some vs => of_fields vs
  | None => None
  end.

#[export] Instance Descriptor_Potrf : Descriptor PotrfDescriptor := {|
  layout := [c_enum; c_enum; c_int; c_int; c_int];
  to_fields d :=
    [SolverType_to_Z (potrf_type d); FillMode_to_Z (potrf_uplo d);
     potrf_batch d; potrf_n d; potrf_lwork d];
  of_fields vs :=
    match vs with
    | [t; u; b; n; lw] =>
        match SolverType_of_Z t, FillMode_of_Z u with
        | Some t', Some u' => Some (Build_PotrfDescriptor t' u' b n lw)
        | _, _ => None
        end
    | _ => None
    end
|}.

#[export] Instance Descriptor_Getrf : Descriptor GetrfDescriptor := {|
  layout := [c_enum; c_int; c_int; c_int; c_int];
  to_fields d :=
    [SolverType_to_Z (getrf_type d); getrf_batch d; getrf_m d; getrf_n d;
     getrf_lwork d];
  of_fields vs :=
    match vs with
    | [t; b; m; n; lw] =>
        match SolverType_of_Z t with
        | Some t' => Some (Build_GetrfDescriptor t' b m n lw)
        | None => None
        end
    | _ => None
    end
|}.

#[export] Instance Descriptor_Geqrf : Descriptor GeqrfDescriptor := {|
  layout := [c_enum; c_int; c_int; c_int; c_int];
  to_fields d :=
    [SolverType_to_Z (geqrf_type d); geqrf_batch d; geqrf_m d; geqrf_n d;
     geqrf_lwork d];
  of_fields vs :=
    match vs with
    | [t; b; m; n; lw] =>
        match SolverType_of_Z t with
        | Some t' => Some (Build_GeqrfDescriptor t' b m n lw)
        | None => None
        end
    | _ => None
    end
|}.

#[export] Instance Descriptor_Csrlsvqr : Descriptor CsrlsvqrDescriptor := {|
  layout := [c_enum; c_int; c_int; c_int; c_double];
  to_fields d :=
    [SolverType_to_Z (csrlsvqr_type d); csrlsvqr_n d; csrlsvqr_nnz d;
     csrlsvqr_reorder d; csrlsvqr_tol d];
  of_fields vs :=
    match vs with
    | [t; n; nnz; r; tol] =>
        match SolverType_of_Z t with
        | Some t' => Some (Build_CsrlsvqrDescriptor t' n nnz r tol)
        | None => None
        end
    | _ => None
    end
|}.

#[export] Instance Descriptor_Orgqr : Descriptor OrgqrDescriptor := {|
  layout := [c_enum; c_int; c_int; c_int; c_int; c_int];
  to_fields d :=
    [SolverType_to_Z (orgqr_type d); orgqr_batch d; orgqr_m d; orgqr_n d;
     orgqr_k d; orgqr_lwork d];
  of_fields vs :=
    match vs with
    | [t; b; m; n; k; lw] =>
        match SolverType_of_Z t with
        | Some t' => Some (Build_OrgqrDescriptor t' b m n k lw)
        | None => None
        end
    | _ => None
    end
|}.

#[export] Instance Descriptor_Syevd : Descriptor SyevdDescriptor := {|
  layout := [c_enum; c_enum; c_int; c_int; c_int];
  to_fields d :=
    [SolverType_to_Z (syevd_type d); FillMode_to_Z (syevd_uplo d);
     syevd_batch d; syevd_n d; syevd_lwork d];
  of_fields vs :=
    match vs with
    | [t; u; b; n; lw] =>
        match SolverType_of_Z t, FillMode_of_Z u with
        | Some t', Some u' => Some (Build_SyevdDescriptor t' u' b n lw)
        | _, _ => None
        end
    | _ => None
    end
|}.

#[export] Instance Descriptor_Syevj : Descriptor SyevjDescriptor := {|
  layout := [c_enum; c_enum; c_int; c_int; c_int];
  to_fields d :=
    [SolverType_to_Z (syevj_type d); FillMode_to_Z (syevj_uplo d);
     syevj_batch d; syevj_n d; syevj_lwork d];
  of_fields vs :=
    match vs with
    | [t; u; b; n; lw] =>
        match SolverType_of_Z t, FillMode_of_Z u with
        | Some t', Some u' => Some (Build_SyevjDescriptor t' u' b n lw)
        | _, _ => None
        end
    | _ => None
    end
|}.

#[export] Instance Descriptor_Gesvd : Descriptor GesvdDescriptor := {|
  layout := [c_enum; c_int; c_int; c_int; c_int; c_schar; c_schar];
  to_fields d :=
    [SolverType_to_Z (gesvd_type d); gesvd_batch d; gesvd_m d; gesvd_n d;
     gesvd_lwork d; schar_to_Z (gesvd_jobu d); schar_to_Z (gesvd_jobvt d)];
  of_fields vs :=
    match vs with
    | [t; b; m; n; lw; ju; jv] =>
        match SolverType_of_Z t with
        | Some t' =>
            Some (Build_GesvdDescriptor t' b m n lw (schar_of_Z ju) (schar_of_Z jv))
        | None => None
        end
    | _ => None
    end
|}.

#[export] Instance Descriptor_Gesvdj : Descriptor GesvdjDescriptor := {|
  layout := [c_enum; c_int; c_int; c_int; c_int; c_enum; c_int];
  to_fields d :=
    [SolverType_to_Z (gesvdj_type d); gesvdj_batch d; gesvdj_m d; gesvdj_n d;
     gesvdj_lwork d; EigMode_to_Z (gesvdj_jobz d); gesvdj_econ d];
  of_fields vs :=
    match vs with
    | [t; b; m; n; lw; j; e] =>
        match SolverType_of_Z t, EigMode_of_Z j with
        | Some t', Some j' => Some (Build_GesvdjDescriptor t' b m n lw j' e)
        | _, _ => None
        end
    | _ => None
    end
|}.

#[export] Instance Descriptor_Sytrd : Descriptor SytrdDescriptor := {|
  layout := [c_enum; c_enum; c_int; c_int; c_int; c_int];
  to_fields d :=
    [SolverType_to_Z (sytrd_type d); FillMode_to_Z (sytrd_uplo d);
     sytrd_batch d; sytrd_n d; sytrd_lda d; sytrd_lwork d];
  of_fields vs :=
    match vs with
    | [t; u; b; n; lda; lw] =>
        match SolverType_of_Z t, FillMode_of_Z u with
        | Some t', Some u' => Some (Build_SytrdDescriptor t' u' b n lda lw)
        | _, _ => None
        end
    | _ => None
    end
|}.

(** A record is well formed when every integer field holds a value of its
    C type. *)
Fixpoint fields_representable (cs : list ctype) (vs : list Z) : Prop :=
  match cs, vs with
  | c :: cs', v :: vs' => representable c v /\ fields_representable cs' vs'
  | [], [] => True
  | _, _ => False
  end.

Definition well_formed {T : Type} `{Descriptor T} (d : T) : Prop :=
  fields_representable layout (to_fields d).

(** The descriptors of all operation families, and the family of a blob's
    consumer. *)
Inductive OperationDescriptor : Type :=
| OfPotrf (d : PotrfDescriptor)
| OfGetrf (d : GetrfDescriptor)
| OfGeqrf (d : GeqrfDescriptor)
| OfCsrlsvqr (d : CsrlsvqrDescriptor)
| OfOrgqr (d : OrgqrDescriptor)
| OfSyevd (d : SyevdDescriptor)
| OfSyevj (d : SyevjDescriptor)
| OfGesvd (d : GesvdDescriptor)
| OfGesvdj (d : GesvdjDescriptor)
| OfSytrd (d : SytrdDescriptor).

Inductive Family : Type :=
| Potrf | Getrf | Geqrf | Csrlsvqr | Orgqr | Syevd | Syevj | Gesvd | Gesvdj | Sytrd.

Definition family_of (d : OperationDescriptor) : Family :=
  match d with
  | OfPotrf _ => Potrf | OfGetrf _ => Getrf | OfGeqrf _ => Geqrf
  | OfCsrlsvqr _ => Csrlsvqr | OfOrgqr _ => Orgqr | OfSyevd _ => Syevd
  | OfSyevj _ => Syevj | OfGesvd _ => Gesvd | OfGesvdj _ => Gesvdj
  | OfSytrd _ => Sytrd
  end.

Definition pack (d : OperationDescriptor) : list byte :=
  match d with
  | OfPotrf x => PackDescriptor x
  | OfGetrf x => PackDescriptor x
  | OfGeqrf x => PackDescriptor x
  | OfCsrlsvqr x => PackDescriptor x
  | OfOrgqr x => PackDescriptor x
  | OfSyevd x => PackDescriptor x
  | OfSyevj x => PackDescriptor x
  | OfGesvd x => PackDescriptor x
  | OfGesvdj x => PackDescriptor x
  | OfSytrd x => PackDescriptor x
  end.

Definition unpack (f : Family) (opaque : list byte) : option OperationDescriptor :=
  match f with
  | Potrf => option_map OfPotrf (UnpackDescriptor opaque)
  | Getrf => option_map OfGetrf (UnpackDescriptor opaque)
  | Geqrf => option_map OfGeqrf (UnpackDescriptor opaque)
  | Csrlsvqr => option_map OfCsrlsvqr (UnpackDescriptor opaque)
  | Orgqr => option_map OfOrgqr (UnpackDescriptor opaque)
  | Syevd => option_map OfSyevd (UnpackDescriptor opaque)
  | Syevj => option_map OfSyevj (UnpackDescriptor opaque)
  | Gesvd => option_map OfGesvd (UnpackDescriptor opaque)
  | Gesvdj => option_map OfGesvdj (UnpackDescriptor opaque)
  | Sytrd => option_map OfSytrd (UnpackDescriptor opaque)
  end.

Definition well_formed_descriptor (d : OperationDescriptor) : Prop :=
  match d with
  | OfPotrf x => well_formed x
  | OfGetrf x => well_formed x
  | OfGeqrf x => well_formed x
  | OfCsrlsvqr x => well_formed x
  | OfOrgqr x => well_formed x
  | OfSyevd x => well_formed x
  | OfSyevj x => well_formed x
  | OfGesvd x => well_formed x
  | OfGesvdj x => well_formed x
  | OfSytrd x => well_formed x
  end.

(* ===================================================================== *)
(** ** The machine the builders run on *)
(* ===================================================================== *)

(** What the accelerator library and the platform answer during one call
    of a builder. [bufferSize q] is the status of the size query [q] and
    the count it stores through [&lwork]; [indeterminate_int] is what an
    [int] that was never assigned is read as. *)
Record Vendor : Type := {
  Borrow_status : Status;
  CreateSyevjInfo_status : Status;
  CreateGesvdjInfo_status : Status;
  bufferSize : BufferSizeCall -> Status * Z;
  indeterminate_int : Z
}.

(** The resources outside a call: the handles available in the pool, the
    algorithm-parameter objects alive, and the size queries issued so far
    (most recent first). *)
Record Machine : Type := {
  pool_available : nat;
  live_infos : nat;
  queries : list BufferSizeCall
}.

(** Automatic objects of a builder that own a resource. *)
Inductive Local : Type :=
| h_handle                  (* auto h = SolverHandlePool::Borrow(), holding a handle *)
| params_cleanup_syevj      (* std::unique_ptr<gpuSyevjInfo, ...> params_cleanup *)
| params_cleanup_gesvdj.    (* std::unique_ptr<gesvdjInfo, ...> params_cleanup *)

(** Modelled from the spec: the handle pool, whose class lives in
    jaxlib/gpu/handle_pool.h and is not part of solver.cc. A handle is
    taken out of the pool for the duration of a size query and given back
    when the borrowing object goes out of scope. *)
Definition pool_take (w : Machine) : Machine :=
  {| pool_available := Nat.pred (pool_available w);
     live_infos := live_infos w;
     queries := queries w |}.

Definition pool_give_back (w : Machine) : Machine :=
  {| pool_available := S (pool_available w);
     live_infos := live_infos w;
     queries := queries w |}.

Definition info_created (w : Machine) : Machine :=
  {| pool_available := pool_available w;
     live_infos := S (live_infos w);
     queries := queries w |}.

Definition info_destroyed (w : Machine) : Machine :=
  {| pool_available := pool_available w;
     live_infos := Nat.pred (live_infos w);
     queries := queries w |}.

Definition query_logged (q : BufferSizeCall) (w : Machine) : Machine :=
  {| pool_available := pool_available w;
     live_infos := live_infos w;
     queries := q :: queries w |}.

(** The destructor of an automatic object. *)
Definition destructor (l : Local) (w : Machine) : Machine :=
  match l with
  | h_handle => pool_give_back w
  | params_cleanup_syevj => info_destroyed w   (* gpusolverDnDestroySyevjInfo(p) *)
  | params_cleanup_gesvdj => info_destroyed w  (* cusolverDnDestroyGesvdjInfo(p) *)
  end.

(** State inside a function body: the machine and the automatic objects
    constructed so far, most recent first. *)
Record Frame : Type := {
  machine : Machine;
  locals : list Local
}.

(** A statement sequence that may throw. *)
Definition M (A : Type) : Type := Vendor -> Frame -> Outcome A * Frame.

Definition ret {A : Type} (a : A) : M A := fun _ s => (Returns a, s).

Definition throw {A : Type} (e : exception) : M A := fun _ s => (Throws e, s).

Definition bind {A B : Type} (c : M A) (k : A -> M B) : M B :=
  fun v s =>
    match c v s with
    | (Returns a, s') => k a v s'
    | (Throws e, s') => (Throws e, s')
    end.

Notation "x <- c ;; k" := (bind c (fun x => k))
  (at level 61, c at next level, right associativity).
Notation "c ;; k" := (bind c (fun _ => k))
  (at level 61, right associativity).

(** Leaving a scope destroys its automatic objects in reverse order of
    construction, on a return and on a throw alike. *)
Fixpoint unwind (ls : list Local) (w : Machine) : Machine :=
  match ls with
  | [] => w
  | l :: rest => unwind rest (destructor l w)
  end.

Definition function {A : Type} (body : M A) (v : Vendor) (w : Machine)
  : Outcome A * Machine :=
  match body v {| machine := w; locals := [] |} with
  | (r, s) => (r, unwind (locals s) (machine s))
  end.

Definition construct (l : Local) : M unit :=
  fun _ s => (Returns tt, {| machine := machine s; locals := l :: locals s |}).

(** [JAX_THROW_IF_ERROR(status)]. *)
Definition JAX_THROW_IF_ERROR (callee : Callee) (status : Status) : M unit :=
  match status with
  | OkStatus => ret tt
  | _ => throw (runtime_error callee status)
  end.

(** [auto h = SolverHandlePool::Borrow();] gives the status of [h]. When
    it is OK, [h] holds a handle, which its destructor gives back. *)
Definition Borrow : M Status :=
  fun v s =>
    match pool_available (machine s) with
    | O => (Returns ResourceExhausted, s)
    | S _ =>
        match Borrow_status v with
        | OkStatus =>
            (Returns OkStatus,
             {| machine := pool_take (machine s); locals := h_handle :: locals s |})
        | st => (Returns st, s)
        end
    end.

(** [gpusolverDnCreateSyevjInfo(&params)] and
    [cusolverDnCreateGesvdjInfo(&params)]: an object exists after a
    successful call only. *)
Definition gpusolverDnCreateSyevjInfo : M Status :=
  fun v s =>
    match CreateSyevjInfo_status v with
    | OkStatus =>
        (Returns OkStatus, {| machine := info_created (machine s); locals := locals s |})
    | st => (Returns st, s)
    end.

Definition cusolverDnCreateGesvdjInfo : M Status :=
  fun v s =>
    match CreateGesvdjInfo_status v with
    | OkStatus =>
        (Returns OkStatus, {| machine := info_created (machine s); locals := locals s |})
    | st => (Returns st, s)
    end.

(** [JAX_THROW_IF_ERROR(JAX_AS_STATUS(q(..., &lwork)))]: the query is
    issued; a failed status is thrown, otherwise the count stored in
    [lwork] is the result. *)
Definition bufferSize_or_throw (q : BufferSizeCall) : M Z :=
  fun v s =>
    let s' := {| machine := query_logged q (machine s); locals := locals s |} in
    match bufferSize v q with
    | (OkStatus, lwork) => (Returns lwork, s')
    | (st, _) => (Throws (runtime_error (bufferSize_call q) st), s')
    end.

(** [int lwork;] read before any assignment. *)
Definition uninitialized_int : M Z := fun v s => (Returns (indeterminate_int v), s).

(** The resolver called from a builder: its exception propagates. *)
Definition resolve (dtype0 : dtype) : M SolverType :=
  match DtypeToSolverType dtype0 with
  | Returns t => ret t
  | Throws e => throw e
  end.

Definition Bytes : Type := list byte.

(* ===================================================================== *)
(** ** The builders *)
(* ===================================================================== *)

Definition fill_mode (lower : bool) : gpusolverFillMode_t :=
  if lower then GPUSOLVER_FILL_MODE_LOWER else GPUSOLVER_FILL_MODE_UPPER.

(** potrf: Cholesky decomposition. The first component of a branch is the
    value of [lwork] after it, the second the [std::int64_t
    workspace_size]; the returned pair has an [int] first. *)
Definition BuildPotrfDescriptor (backend : Backend) (dtype0 : dtype)
    (lower : bool) (b n : Z) : Vendor -> Machine -> Outcome (Z * Bytes) * Machine :=
  function (
    type <- resolve dtype0 ;;
    h <- Borrow ;;
    JAX_THROW_IF_ERROR SolverHandlePool_Borrow h ;;
    lwork0 <- uninitialized_int ;;
    let uplo := fill_mode lower in
    sized <-
      (if b =? 1 then
         match type with
         | F32 =>
             lwork <- bufferSize_or_throw (gpusolverDnSpotrf_bufferSize uplo n n) ;;
             ret (lwork, to_int64 (size_t_mul (to_size_t lwork) sizeof_float))
         | F64 =>
             lwork <- bufferSize_or_throw (gpusolverDnDpotrf_bufferSize uplo n n) ;;
             ret (lwork, to_int64 (size_t_mul (to_size_t lwork) sizeof_double))
         | C64 =>
             lwork <- bufferSize_or_throw (gpusolverDnCpotrf_bufferSize uplo n n) ;;
             ret (lwork, to_int64 (size_t_mul (to_size_t lwork) sizeof_gpuComplex))
         | C128 =>
             lwork <- bufferSize_or_throw (gpusolverDnZpotrf_bufferSize uplo n n) ;;
             ret (lwork,
                  to_int64 (size_t_mul (to_size_t lwork) sizeof_gpuDoubleComplex))
         end
       else
         match backend with
         | CUDA =>
             (* We use the workspace buffer for our own scratch space. *)
             ret (lwork0, to_int64 (size_t_mul sizeof_pointer (to_size_t b)))
         | HIP =>
             match type with
             | F32 =>
                 lwork <- bufferSize_or_throw
                            (hipsolverSpotrfBatched_bufferSize uplo n n b) ;;
                 ret (lwork,
                      to_int64 (size_t_add
                                  (size_t_mul (to_size_t lwork) sizeof_float)
                                  (size_t_mul (to_size_t b) sizeof_pointer)))
             | F64 =>
                 lwork <- bufferSize_or_throw
                            (hipsolverDpotrfBatched_bufferSize uplo n n b) ;;
                 ret (lwork,
                      to_int64 (size_t_add
                                  (size_t_mul (to_size_t lwork) sizeof_double)
                                  (size_t_mul (to_size_t b) sizeof_pointer)))
             | C64 =>
                 lwork <- bufferSize_or_throw
                            (hipsolverCpotrfBatched_bufferSize uplo n n b) ;;
                 ret (lwork,
                      to_int64 (size_t_add
                                  (size_t_mul (to_size_t lwork) sizeof_gpuComplex)
                                  (size_t_mul (to_size_t b) sizeof_pointer)))
             | C128 =>
                 lwork <- bufferSize_or_throw
                            (hipsolverZpotrfBatched_bufferSize uplo n n b) ;;
                 ret (lwork,
                      to_int64 (size_t_add
                                  (size_t_mul (to_size_t lwork) sizeof_gpuDoubleComplex)
                                  (size_t_mul (to_size_t b) sizeof_pointer)))
             end
         end) ;;
    let lwork := fst sized in
    let workspace_size := snd sized in
    ret (to_int workspace_size,
         PackDescriptor (Build_PotrfDescriptor type uplo b n lwork))).

(** getrf: LU decomposition. *)
Definition BuildGetrfDescriptor (dtype0 : dtype) (b m n : Z)
  : Vendor -> Machine -> Outcome (Z * Bytes) * Machine :=
  function (
    type <- resolve dtype0 ;;
    h <- Borrow ;;
    JAX_THROW_IF_ERROR SolverHandlePool_Borrow h ;;
    lwork <-
      match type with
      | F32 => bufferSize_or_throw (gpusolverDnSgetrf_bufferSize m n m)
      | F64 => bufferSize_or_throw (gpusolverDnDgetrf_bufferSize m n m)
      | C64 => bufferSize_or_throw (gpusolverDnCgetrf_bufferSize m n m)
      | C128 => bufferSize_or_throw (gpusolverDnZgetrf_bufferSize m n m)
      end ;;
    ret (lwork, PackDescriptor (Build_GetrfDescriptor type b m n lwork))).

(** geqrf: QR decomposition. *)
Definition BuildGeqrfDescriptor (dtype0 : dtype) (b m n : Z)
  : Vendor -> Machine -> Outcome (Z * Bytes) * Machine :=
  function (
    type <- resolve dtype0 ;;
    h <- Borrow ;;
    JAX_THROW_IF_ERROR SolverHandlePool_Borrow h ;;
    lwork <-
      match type with
      | F32 => bufferSize_or_throw (gpusolverDnSgeqrf_bufferSize m n m)
      | F64 => bufferSize_or_throw (gpusolverDnDgeqrf_bufferSize m n m)
      | C64 => bufferSize_or_throw (gpusolverDnCgeqrf_bufferSize m n m)
      | C128 => bufferSize_or_throw (gpusolverDnZgeqrf_bufferSize m n m)
      end ;;
    ret (lwork, PackDescriptor (Build_GeqrfDescriptor type b m n lwork))).

(** csrlsvqr: linear system solve via sparse QR (CUDA only). [tol] is the
    bit pattern of the [double] argument. *)
Definition BuildCsrlsvqrDescriptor (dtype0 : dtype) (n nnzA reorder tol : Z)
  : Vendor -> Machine -> Outcome Bytes * Machine :=
  function (
    type <- resolve dtype0 ;;
    ret (PackDescriptor (Build_CsrlsvqrDescriptor type n nnzA reorder tol))).

(** orgqr/ungqr: apply elementary Householder transformations. *)
Definition BuildOrgqrDescriptor (dtype0 : dtype) (b m n k : Z)
  : Vendor -> Machine -> Outcome (Z * Bytes) * Machine :=
  function (
    type <- resolve dtype0 ;;
    h <- Borrow ;;
    JAX_THROW_IF_ERROR SolverHandlePool_Borrow h ;;
    lwork <-
      match type with
      | F32 => bufferSize_or_throw (gpusolverDnSorgqr_bufferSize m n k m)
      | F64 => bufferSize_or_throw (gpusolverDnDorgqr_bufferSize m n k m)
      | C64 => bufferSize_or_throw (gpusolverDnCungqr_bufferSize m n k m)
      | C128 => bufferSize_or_throw (gpusolverDnZungqr_bufferSize m n k m)
      end ;;
    ret (lwork, PackDescriptor (Build_OrgqrDescriptor type b m n k lwork))).

(** Symmetric (Hermitian) eigendecomposition, QR algorithm: syevd/heevd. *)
Definition BuildSyevdDescriptor (dtype0 : dtype) (lower : bool) (b n : Z)
  : Vendor -> Machine -> Outcome (Z * Bytes) * Machine :=
  function (
    type <- resolve dtype0 ;;
    h <- Borrow ;;
    JAX_THROW_IF_ERROR SolverHandlePool_Borrow h ;;
    let jobz := GPUSOLVER_EIG_MODE_VECTOR in
    let uplo := fill_mode lower in
    lwork <-
      match type with
      | F32 => bufferSize_or_throw (gpusolverDnSsyevd_bufferSize jobz uplo n n)
      | F64 => bufferSize_or_throw (gpusolverDnDsyevd_bufferSize jobz uplo n n)
      | C64 => bufferSize_or_throw (gpusolverDnCheevd_bufferSize jobz uplo n n)
      | C128 => bufferSize_or_throw (gpusolverDnZheevd_bufferSize jobz uplo n n)
      end ;;
    ret (lwork, PackDescriptor (Build_SyevdDescriptor type uplo b n lwork))).

(** Symmetric (Hermitian) eigendecomposition, Jacobi algorithm:
    syevj/heevj. *)
Definition BuildSyevjDescriptor (dtype0 : dtype) (lower : bool) (batch n : Z)
  : Vendor -> Machine -> Outcome (Z * Bytes) * Machine :=
  function (
    type <- resolve dtype0 ;;
    h <- Borrow ;;
    JAX_THROW_IF_ERROR SolverHandlePool_Borrow h ;;
    created <- gpusolverDnCreateSyevjInfo ;;
    JAX_THROW_IF_ERROR gpusolverDnCreateSyevjInfo_call created ;;
    construct params_cleanup_syevj ;;
    let jobz := GPUSOLVER_EIG_MODE_VECTOR in
    let uplo := fill_mode lower in
    lwork <-
      (if batch =? 1 then
         match type with
         | F32 => bufferSize_or_throw (gpusolverDnSsyevj_bufferSize jobz uplo n n)
         | F64 => bufferSize_or_throw (gpusolverDnDsyevj_bufferSize jobz uplo n n)
         | C64 => bufferSize_or_throw (gpusolverDnCheevj_bufferSize jobz uplo n n)
         | C128 => bufferSize_or_throw (gpusolverDnZheevj_bufferSize jobz uplo n n)
         end
       else
         match type with
         | F32 =>
             bufferSize_or_throw
               (gpusolverDnSsyevjBatched_bufferSize jobz uplo n n batch)
         | F64 =>
             bufferSize_or_throw
               (gpusolverDnDsyevjBatched_bufferSize jobz uplo n n batch)
         | C64 =>
             bufferSize_or_throw
               (gpusolverDnCheevjBatched_bufferSize jobz uplo n n batch)
         | C128 =>
             bufferSize_or_throw
               (gpusolverDnZheevjBatched_bufferSize jobz uplo n n batch)
         end) ;;
    ret (lwork, PackDescriptor (Build_SyevjDescriptor type uplo batch n lwork))).

(** Singular value decomposition using QR algorithm: gesvd. Each branch
    is a chained assignment [jobu = jobvt = c]. *)
Definition BuildGesvdDescriptor (dtype0 : dtype) (b m n : Z)
    (compute_uv full_matrices : bool)
  : Vendor -> Machine -> Outcome (Z * Bytes) * Machine :=
  function (
    type <- resolve dtype0 ;;
    h <- Borrow ;;
    JAX_THROW_IF_ERROR SolverHandlePool_Borrow h ;;
    let jobvt :=
      if compute_uv then
        if full_matrices then "A"%char else "S"%char
      else "N"%char in
    let jobu := jobvt in
    lwork <-
      match type with
      | F32 => bufferSize_or_throw (gpusolverDnSgesvd_bufferSize jobu jobvt m n)
      | F64 => bufferSize_or_throw (gpusolverDnDgesvd_bufferSize jobu jobvt m n)
      | C64 => bufferSize_or_throw (gpusolverDnCgesvd_bufferSize jobu jobvt m n)
      | C128 => bufferSize_or_throw (gpusolverDnZgesvd_bufferSize jobu jobvt m n)
      end ;;
    ret (lwork,
         PackDescriptor (Build_GesvdDescriptor type b m n lwork jobu jobvt))).

(** Singular value decomposition using Jacobi algorithm: gesvdj (CUDA
    only). *)
Definition BuildGesvdjDescriptor (dtype0 : dtype) (batch m n : Z)
    (compute_uv : bool) (econ : Z)
  : Vendor -> Machine -> Outcome (Z * Bytes) * Machine :=
  function (
    type <- resolve dtype0 ;;
    h <- Borrow ;;
    JAX_THROW_IF_ERROR SolverHandlePool_Borrow h ;;
    let jobz :=
      if compute_uv then GPUSOLVER_EIG_MODE_VECTOR else CUSOLVER_EIG_MODE_NOVECTOR in
    created <- cusolverDnCreateGesvdjInfo ;;
    JAX_THROW_IF_ERROR cusolverDnCreateGesvdjInfo_call created ;;
    construct params_cleanup_gesvdj ;;
    lwork <-
      (if batch =? 1 then
         match type with
         | F32 =>
             bufferSize_or_throw (cusolverDnSgesvdj_bufferSize jobz econ m n m m n)
         | F64 =>
             bufferSize_or_throw (cusolverDnDgesvdj_bufferSize jobz econ m n m m n)
         | C64 =>
             bufferSize_or_throw (cusolverDnCgesvdj_bufferSize jobz econ m n m m n)
         | C128 =>
             bufferSize_or_throw (cusolverDnZgesvdj_bufferSize jobz econ m n m m n)
         end
       else
         match type with
         | F32 =>
             bufferSize_or_throw
               (cusolverDnSgesvdjBatched_bufferSize jobz m n m m n batch)
         | F64 =>
             bufferSize_or_throw
               (cusolverDnDgesvdjBatched_bufferSize jobz m n m m n batch)
         | C64 =>
             bufferSize_or_throw
               (cusolverDnCgesvdjBatched_bufferSize jobz m n m m n batch)
         | C128 =>
             bufferSize_or_throw
               (cusolverDnZgesvdjBatched_bufferSize jobz m n m m n batch)
         end) ;;
    ret (lwork,
         PackDescriptor (Build_GesvdjDescriptor type batch m n lwork jobz econ))).

(** sytrd/hetrd: reduction to tridiagonal form. *)
Definition BuildSytrdDescriptor (dtype0 : dtype) (lower : bool) (b n : Z)
  : Vendor -> Machine -> Outcome (Z * Bytes) * Machine :=
  function (
    type <- resolve dtype0 ;;
    h <- Borrow ;;
    JAX_THROW_IF_ERROR SolverHandlePool_Borrow h ;;
    let uplo := fill_mode lower in
    lwork <-
      match type with
      | F32 => bufferSize_or_throw (gpusolverDnSsytrd_bufferSize uplo n n)
      | F64 => bufferSize_or_throw (gpusolverDnDsytrd_bufferSize uplo n n)
      | C64 => bufferSize_or_throw (gpusolverDnChetrd_bufferSize uplo n n)
      | C128 => bufferSize_or_throw (gpusolverDnZhetrd_bufferSize uplo n n)
      end ;;
    ret (lwork, PackDescriptor (Build_SytrdDescriptor type uplo b n n lwork))).

(* ===================================================================== *)
(** ** The Python module *)
(* ===================================================================== *)

(** A call of one of the functions [PYBIND11_MODULE] defines. *)
Inductive BuilderCall : Type :=
| build_potrf_descriptor (dtype0 : dtype) (lower : bool) (b n : Z)
| build_getrf_descriptor (dtype0 : dtype) (b m n : Z)
| build_geqrf_descriptor (dtype0 : dtype) (b m n : Z)
| build_orgqr_descriptor (dtype0 : dtype) (b m n k : Z)
| build_syevd_descriptor (dtype0 : dtype) (lower : bool) (b n : Z)
| build_syevj_descriptor (dtype0 : dtype) (lower : bool) (batch n : Z)
| build_gesvd_descriptor (dtype0 : dtype) (b m n : Z) (compute_uv full_matrices : bool)
| build_sytrd_descriptor (dtype0 : dtype) (lower : bool) (b n : Z)
| build_csrlsvqr_descriptor (dtype0 : dtype) (n nnzA reorder tol : Z)
| build_gesvdj_descriptor (dtype0 : dtype) (batch m n : Z) (compute_uv : bool) (econ : Z).

(** What a builder hands to Python: a pair of a size and a blob, or, for
    csrlsvqr, a blob alone. *)
Inductive PyResult : Type :=
| py_pair (workspace_size : Z) (opaque : Bytes)
| py_bytes (opaque : Bytes).

Definition as_pair (r : Outcome (Z * Bytes) * Machine) : Outcome PyResult * Machine :=
  match r with
  | (Returns (size, opaque), w) => (Returns (py_pair size opaque), w)
  | (Throws e, w) => (Throws e, w)
  end.

Definition as_bytes (r : Outcome Bytes * Machine) : Outcome PyResult * Machine :=
  match r with
  | (Returns opaque, w) => (Returns (py_bytes opaque), w)
  | (Throws e, w) => (Throws e, w)
  end.

(** The last two functions are defined under [JAX_GPU_CUDA] only. *)
Definition defined_in (backend : Backend) (c : BuilderCall) : bool :=
  match c, backend with
  | build_csrlsvqr_descriptor _ _ _ _ _, HIP => false
  | build_gesvdj_descriptor _ _ _ _ _ _, HIP => false
  | _, _ => true
  end.

Definition call (backend : Backend) (c : BuilderCall) (v : Vendor) (w : Machine)
  : Outcome PyResult * Machine :=
  match c with
  | build_potrf_descriptor dt lower b n =>
      as_pair (BuildPotrfDescriptor backend dt lower b n v w)
  | build_getrf_descriptor dt b m n => as_pair (BuildGetrfDescriptor dt b m n v w)
  | build_geqrf_descriptor dt b m n => as_pair (BuildGeqrfDescriptor dt b m n v w)
  | build_orgqr_descriptor dt b m n k => as_pair (BuildOrgqrDescriptor dt b m n k v w)
  | build_syevd_descriptor dt lower b n => as_pair (BuildSyevdDescriptor dt lower b n v w)
  | build_syevj_descriptor dt lower batch n =>
      as_pair (BuildSyevjDescriptor dt lower batch n v w)
  | build_gesvd_descriptor dt b m n compute_uv full_matrices =>
      as_pair (BuildGesvdDescriptor dt b m n compute_uv full_matrices v w)
  | build_sytrd_descriptor dt lower b n => as_pair (BuildSytrdDescriptor dt lower b n v w)
  | build_csrlsvqr_descriptor dt n nnzA reorder tol =>
      as_bytes (BuildCsrlsvqrDescriptor dt n nnzA reorder tol v w)
  | build_gesvdj_descriptor dt batch m n compute_uv econ =>
      as_pair (BuildGesvdjDescriptor dt batch m n compute_uv econ v w)
  end.

(* ===================================================================== *)
(** ** Observations used in the statements *)
(* ===================================================================== *)

(** The size a call of a pair-returning builder hands back, if it returns. *)
Definition size_of (r : Outcome (Z * Bytes) * Machine) : option Z :=
  match fst r with
  | Returns (size, _) => Some size
  | Throws _ => None
  end.

(** The blob a call of a pair-returning builder hands back, if it returns. *)
Definition opaque_of (r : Outcome (Z * Bytes) * Machine) : option Bytes :=
  match fst r with
  | Returns (_, opaque) => Some opaque
  | Throws _ => None
  end.

(** The size query the Cholesky builder issues on a given path; the CUDA
    batched path issues none. *)
Definition potrf_size_query (backend : Backend) (type : SolverType)
    (uplo : gpusolverFillMode_t) (b n : Z) : option BufferSizeCall :=
  if b =? 1 then Some (potrf_bufferSize type uplo n n)
  else
    match backend with
    | CUDA => None
    | HIP => Some (potrfBatched_bufferSize type uplo n n b)
    end.

(** The byte count the Cholesky builder computes on a given path, as a
    mathematical integer. *)
Definition potrf_byte_count (backend : Backend) (type : SolverType)
    (b lwork : Z) : Z :=
  if b =? 1 then lwork * sizeof_elem type
  else
    match backend with
    | CUDA => b * sizeof_pointer
    | HIP => lwork * sizeof_elem type + b * sizeof_pointer
    end.

(** Two vendors that give the same statuses and the same answers to every
    size query; they may differ in what unassigned memory holds. *)
Definition same_answers (v1 v2 : Vendor) : Prop :=
  Borrow_status v1 = Borrow_status v2 /\
  CreateSyevjInfo_status v1 = CreateSyevjInfo_status v2 /\
  CreateGesvdjInfo_status v1 = CreateGesvdjInfo_status v2 /\
  (forall q, bufferSize v1 q = bufferSize v2 q).

(** A vendor whose calls all succeed, answering [lwork] to every size
    query, on a platform where unassigned [int]s read as [garbage]. *)
Definition vendor_ok (lwork garbage : Z) : Vendor :=
  {| Borrow_status := OkStatus;
     CreateSyevjInfo_status := OkStatus;
     CreateGesvdjInfo_status := OkStatus;
     bufferSize := fun _ => (OkStatus, lwork);
     indeterminate_int := garbage |}.

(** A vendor whose size queries fail with [code]. *)
Definition vendor_query_fails (code : Z) : Vendor :=
  {| Borrow_status := OkStatus;
     CreateSyevjInfo_status := OkStatus;
     CreateGesvdjInfo_status := OkStatus;
     bufferSize := fun _ => (NotOk code, 0);
     indeterminate_int := 0 |}.

(** A machine with [k] handles in the pool and nothing else. *)
Definition machine_with (k : nat) : Machine :=
  {| pool_available := k; live_infos := 0; queries := [] |}.

Definition float32 : dtype := {| kind := "f"; itemsize := 4 |}.
Definition float64 : dtype := {| kind := "f"; itemsize := 8 |}.
Definition complex64 : dtype := {| kind := "c"; itemsize := 8 |}.
Definition complex128 : dtype := {| kind := "c"; itemsize := 16 |}.
Definition float16 : dtype := {| kind := "f"; itemsize := 2 |}.

(** The calls on which the Cholesky builder packs an [lwork] that no
    statement assigned. *)
Definition potrf_reads_unassigned (backend : Backend) (c : BuilderCall) : bool :=
  match c, backend with
  | build_potrf_descriptor _ _ b _, CUDA => negb (b =? 1)
  | _, _ => false
  end.

(** The dtype argument of a call. *)
Definition dtype_of (c : BuilderCall) : dtype :=
  match c with
  | build_potrf_descriptor dt _ _ _ => dt
  | build_getrf_descriptor dt _ _ _ => dt
  | build_geqrf_descriptor dt _ _ _ => dt
  | build_orgqr_descriptor dt _ _ _ _ => dt
  | build_syevd_descriptor dt _ _ _ => dt
  | build_syevj_descriptor dt _ _ _ => dt
  | build_gesvd_descriptor dt _ _ _ _ _ => dt
  | build_sytrd_descriptor dt _ _ _ => dt
  | build_csrlsvqr_descriptor dt _ _ _ _ => dt
  | build_gesvdj_descriptor dt _ _ _ _ _ => dt
  end.

(** What a field holds after a value went through its bytes. *)
Fixpoint stored (cs : list ctype) (vs : list Z) : list Z :=
  match cs, vs with
  | c :: cs', v :: vs' => decode c (encode c v) :: stored cs' vs'
  | _, _ => []
  end.

(* ===================================================================== *)
(** ** Kernel registrations and module functions *)
(* ===================================================================== *)

(** The operation family a module call belongs to. *)
Definition family_of_call (c : BuilderCall) : Family :=
  match c with
  | build_potrf_descriptor _ _ _ _ => Potrf
  | build_getrf_descriptor _ _ _ _ => Getrf
  | build_geqrf_descriptor _ _ _ _ => Geqrf
  | build_orgqr_descriptor _ _ _ _ _ => Orgqr
  | build_syevd_descriptor _ _ _ _ => Syevd
  | build_syevj_descriptor _ _ _ _ => Syevj
  | build_gesvd_descriptor _ _ _ _ _ _ => Gesvd
  | build_sytrd_descriptor _ _ _ _ => Sytrd
  | build_csrlsvqr_descriptor _ _ _ _ _ => Csrlsvqr
  | build_gesvdj_descriptor _ _ _ _ _ _ => Gesvdj
  end.

(** A [py::dict] from names to encapsulated kernels, in insertion order.
    The kernels [Potrf], [Getrf], ... are named by their family. *)
Definition PyDict : Type := list (string * Family).

(** [dict[key] = value]: an existing key keeps its place and gets the new
    value, a new key goes last. *)
Fixpoint setitem (dict : PyDict) (key : string) (value : Family) : PyDict :=
  match dict with
  | [] => [(key, value)]
  | (k, x) :: rest =>
      if String.eqb k key then (k, value) :: rest
      else (k, x) :: setitem rest key value
  end.

Fixpoint getitem (dict : PyDict) (key : string) : option Family :=
  match dict with
  | [] => None
  | (k, x) :: rest => if String.eqb k key then Some x else getitem rest key
  end.

(** [Registrations()]. [JAX_GPU_PREFIX] is a string literal defined in
    jaxlib/gpu/vendor.h, taken here as a parameter; the two CUDA-only
    names are written out in full in the source. *)
Definition Registrations (backend : Backend) (JAX_GPU_PREFIX : string) : PyDict :=
  let dict := [] in
  let dict := setitem dict (JAX_GPU_PREFIX ++ "solver_potrf")%string Potrf in
  let dict := setitem dict (JAX_GPU_PREFIX ++ "solver_getrf")%string Getrf in
  let dict := setitem dict (JAX_GPU_PREFIX ++ "solver_geqrf")%string Geqrf in
  let dict := setitem dict (JAX_GPU_PREFIX ++ "solver_orgqr")%string Orgqr in
  let dict := setitem dict (JAX_GPU_PREFIX ++ "solver_syevd")%string Syevd in
  let dict := setitem dict (JAX_GPU_PREFIX ++ "solver_syevj")%string Syevj in
  let dict := setitem dict (JAX_GPU_PREFIX ++ "solver_gesvd")%string Gesvd in
  let dict := setitem dict (JAX_GPU_PREFIX ++ "solver_sytrd")%string Sytrd in
  match backend with
  | CUDA =>
      let dict := setitem dict "cusolver_csrlsvqr"%string Csrlsvqr in
      let dict := setitem dict "cusolver_gesvdj"%string Gesvdj in
      dict
  | HIP => dict
  end.

(** What a name of the Python module is bound to. *)
Inductive ModuleFunction : Type :=
| registrations_function
| builder_function (f : Family).

(** [PYBIND11_MODULE(_solver, m)]: the [m.def] calls in order. *)
Definition PYBIND11_MODULE (backend : Backend) : list (string * ModuleFunction) :=
  [ ("registrations"%string, registrations_function);
    ("build_potrf_descriptor"%string, builder_function Potrf);
    ("build_getrf_descriptor"%string, builder_function Getrf);
    ("build_geqrf_descriptor"%string, builder_function Geqrf);
    ("build_orgqr_descriptor"%string, builder_function Orgqr);
    ("build_syevd_descriptor"%string, builder_function Syevd);
    ("build_syevj_descriptor"%string, builder_function Syevj);
    ("build_gesvd_descriptor"%string, builder_function Gesvd);
    ("build_sytrd_descriptor"%string, builder_function Sytrd) ]
  ++ match backend with
     | CUDA =>
         [ ("build_csrlsvqr_descriptor"%string, builder_function Csrlsvqr);
           ("build_gesvdj_descriptor"%string, builder_function Gesvdj) ]
     | HIP => []
     end.

(** A builder's result without the blob: the size it returns or the
    exception it throws, and the machine it leaves. *)
Definition forget_blob (r : Outcome (Z * Bytes) * Machine) : Outcome Z * Machine :=
  match r with
  | (Returns (size, _), w) => (Returns size, w)
  | (Throws e, w) => (Throws e, w)
  end.

(* ===================================================================== *)
(** * Properties *)
(* ===================================================================== *)

(** ** Integer conversions *)

Lemma wrap_signed_small (w x : Z) :
  0 < w -> - 2 ^ (w - 1) <= x < 2 ^ (w - 1) -> wrap_signed w x = x.
Proof.
  intros Hw Hx. unfold wrap_signed.
  assert (E : 2 ^ w = 2 * 2 ^ (w - 1)).
  { replace w with (Z.succ (w - 1)) at 1 by lia. apply Z.pow_succ_r. lia. }
  rewrite Z.mod_small by lia. lia.
Qed.

Lemma wrap_signed_range (w x : Z) :
  0 < w -> - 2 ^ (w - 1) <= wrap_signed w x < 2 ^ (w - 1).
Proof.
  intros Hw. unfold wrap_signed.
  assert (E : 2 ^ w = 2 * 2 ^ (w - 1)).
  { replace w with (Z.succ (w - 1)) at 1 by lia. apply Z.pow_succ_r. lia. }
  assert (P : 0 < 2 ^ (w - 1)) by (apply Z.pow_pos_nonneg; lia).
  pose proof (Z.mod_pos_bound (x + 2 ^ (w - 1)) (2 ^ w)). lia.
Qed.

Lemma wrap_signed_mod (w x : Z) :
  0 < w -> wrap_signed w x mod 2 ^ w = x mod 2 ^ w.
Proof.
  intros Hw. unfold wrap_signed.
  assert (P : 0 < 2 ^ w) by (apply Z.pow_pos_nonneg; lia).
  rewrite Zminus_mod, Z.mod_mod by lia.
  rewrite <- Zminus_mod. f_equal. lia.
Qed.

Lemma wrap_signed_of_mod (w x : Z) :
  0 < w -> wrap_signed w (x mod 2 ^ w) = wrap_signed w x.
Proof.
  intros Hw. unfold wrap_signed.
  assert (P : 0 < 2 ^ w) by (apply Z.pow_pos_nonneg; lia).
  f_equal. rewrite Zplus_mod_idemp_l. reflexivity.
Qed.

Lemma wrap_signed_congr (w x y : Z) :
  0 < w -> x mod 2 ^ w = y mod 2 ^ w -> wrap_signed w x = wrap_signed w y.
Proof.
  intros Hw E.
  rewrite <- (wrap_signed_of_mod w x), <- (wrap_signed_of_mod w y) by assumption.
  now rewrite E.
Qed.

Lemma to_int_small (x : Z) : is_int x -> to_int x = x.
Proof.
  unfold is_int, INT_MIN, INT_MAX, to_int. intros H.
  apply wrap_signed_small; simpl in *; lia.
Qed.

Lemma to_int_is_int (x : Z) : is_int (to_int x).
Proof.
  unfold is_int, INT_MIN, INT_MAX, to_int.
  pose proof (wrap_signed_range 32 x). simpl in *. lia.
Qed.

Lemma to_int_mod (x : Z) : to_int x mod 2 ^ 32 = x mod 2 ^ 32.
Proof. apply (wrap_signed_mod 32). lia. Qed.

Lemma mod32_of_mod64 (x : Z) : (x mod 2 ^ 64) mod 2 ^ 32 = x mod 2 ^ 32.
Proof.
  apply Z.mod_mod_divide. exists (2 ^ 32). reflexivity.
Qed.

(** Narrowing a 64-bit value to [int] only looks at the low 32 bits. *)
Lemma to_int_to_int64 (x : Z) : to_int (to_int64 x) = to_int x.
Proof.
  unfold to_int, to_int64. apply wrap_signed_congr; [lia|].
  rewrite <- (mod32_of_mod64 (wrap_signed 64 x)), wrap_signed_mod by lia.
  apply mod32_of_mod64.
Qed.

Lemma to_int_of_mod64 (x : Z) : to_int (x mod 2 ^ 64) = to_int x.
Proof.
  unfold to_int. apply wrap_signed_congr; [lia|]. apply mod32_of_mod64.
Qed.

(** The 64-bit computations of the Cholesky builder are exact sums and
    products once narrowed to [int]. *)
Lemma to_int_size_t_mul (a k : Z) :
  to_int (to_int64 (size_t_mul (to_size_t a) k)) = to_int (a * k).
Proof.
  rewrite to_int_to_int64. unfold size_t_mul, to_size_t.
  rewrite Zmult_mod_idemp_l. apply to_int_of_mod64.
Qed.

Lemma to_int_size_t_mul_r (k a : Z) :
  to_int (to_int64 (size_t_mul k (to_size_t a))) = to_int (a * k).
Proof.
  rewrite to_int_to_int64. unfold size_t_mul, to_size_t.
  rewrite Zmult_mod_idemp_r, Z.mul_comm. apply to_int_of_mod64.
Qed.

Lemma to_int_size_t_add_mul (a k b p : Z) :
  to_int (to_int64 (size_t_add (size_t_mul (to_size_t a) k)
                               (size_t_mul (to_size_t b) p)))
  = to_int (a * k + b * p).
Proof.
  rewrite to_int_to_int64. unfold size_t_add, size_t_mul, to_size_t.
  rewrite !Zmult_mod_idemp_l, <- Zplus_mod.
  apply to_int_of_mod64.
Qed.


(** ** The element-type resolver *)

Lemma key_eqb_eq (a b : ascii * Z) : key_eqb a b = true <-> a = b.
Proof.
  destruct a as [c x], b as [d y]. unfold key_eqb. simpl.
  rewrite andb_true_iff, Ascii.eqb_eq, Z.eqb_eq.
  split; [intros [-> ->]; reflexivity | intros E; inversion E; auto].
Qed.

Lemma find_Some key tbl t : find key tbl = Some t -> In (key, t) tbl.
Proof.
  induction tbl as [|[k v] rest IH]; simpl; [discriminate|].
  destruct (key_eqb key k) eqn:E.
  - intros [= ->]. apply key_eqb_eq in E. subst. now left.
  - intros H. right. auto.
Qed.

Lemma find_None key tbl :
  find key tbl = None -> forall t, ~ In (key, t) tbl.
Proof.
  induction tbl as [|[k v] rest IH]; simpl; [tauto|].
  destruct (key_eqb key k) eqn:E; [discriminate|].
  intros H t [[= -> ->]|Hin].
  - assert (key_eqb key key = true) by now apply key_eqb_eq.
    congruence.
  - exact (IH H t Hin).
Qed.

(** C3. The resolver returns F32 for ('f', 4), F64 for ('f', 8), C64 for
    ('c', 8) and C128 for ('c', 16); on every other (kind, itemsize) pair
    it throws the unsupported-dtype exception, which carries the rejected
    dtype; a returned kind is always one of the four table entries. *)
Theorem DtypeToSolverType_resolves :
  DtypeToSolverType {| kind := "f"; itemsize := 4 |} = Returns F32 /\
  DtypeToSolverType {| kind := "f"; itemsize := 8 |} = Returns F64 /\
  DtypeToSolverType {| kind := "c"; itemsize := 8 |} = Returns C64 /\
  DtypeToSolverType {| kind := "c"; itemsize := 16 |} = Returns C128 /\
  forall np_type : dtype,
    match DtypeToSolverType np_type with
    | Returns F32 => kind np_type = "f"%char /\ itemsize np_type = 4
    | Returns F64 => kind np_type = "f"%char /\ itemsize np_type = 8
    | Returns C64 => kind np_type = "c"%char /\ itemsize np_type = 8
    | Returns C128 => kind np_type = "c"%char /\ itemsize np_type = 16
    | Throws e =>
        e = invalid_argument np_type /\
        ~ In (kind np_type, itemsize np_type)
            [("f"%char, 4); ("f"%char, 8); ("c"%char, 8); ("c"%char, 16)]
    end.
Proof.
  repeat split; try reflexivity.
  intros np_type. unfold DtypeToSolverType.
  destruct (find (kind np_type, itemsize np_type) types) as [t|] eqn:E.
  - apply find_Some in E. unfold types in E. simpl in E.
    destruct E as [E|[E|[E|[E|[]]]]]; inversion E; subst; split; reflexivity.
  - split; [reflexivity|].
    pose proof (find_None _ _ E) as N. unfold types in N.
    intros [H|[H|[H|[H|[]]]]]; rewrite <- H in N.
    + apply (N F32). simpl. auto.
    + apply (N F64). simpl. auto.
    + apply (N C64). simpl. auto.
    + apply (N C128). simpl. auto 6.
Qed.

(** ** The descriptor packer *)

Lemma length_encode c v : List.length (encode c v) = sizeof c.
Proof. apply length_le_split. Qed.

Lemma decode_encode c v : representable c v -> decode c (encode c v) = v.
Proof.
  unfold decode, encode, representable. intros R.
  rewrite le_combine_split.
  destruct c; simpl sizeof in *;
    try (rewrite wrap_signed_of_mod by (simpl; lia);
         apply wrap_signed_small; simpl in *; lia).
  apply Z.mod_small. simpl in *. lia.
Qed.

Lemma skipn_encode c v rest : skipn (sizeof c) (encode c v ++ rest) = rest.
Proof.
  rewrite <- (length_encode c v) at 1.
  rewrite skipn_app, skipn_all, Nat.sub_diag. reflexivity.
Qed.

Lemma firstn_encode c v rest : firstn (sizeof c) (encode c v ++ rest) = encode c v.
Proof.
  rewrite <- (length_encode c v) at 1.
  rewrite firstn_app, firstn_all, Nat.sub_diag. simpl. apply app_nil_r.
Qed.

Lemma stored_representable cs vs :
  fields_representable cs vs -> stored cs vs = vs.
Proof.
  revert vs. induction cs as [|c cs IH]; intros [|v vs]; simpl; try tauto.
  intros [R Rs]. rewrite decode_encode, IH; auto.
Qed.

(** Reading back what [pack_fields] wrote gives the stored values. *)
Lemma unpack_pack_fields cs : forall vs,
  List.length vs = List.length cs ->
  unpack_fields cs (pack_fields cs vs) = Some (stored cs vs).
Proof.
  induction cs as [|c cs IH]; intros [|v vs] L; simpl in L; try discriminate.
  - reflexivity.
  - injection L as L. cbn [pack_fields unpack_fields stored].
    assert (Hlen : (List.length (encode c v ++ pack_fields cs vs) <? sizeof c)%nat = false).
    { apply Nat.ltb_ge. rewrite length_app, length_encode. lia. }
    rewrite Hlen, skipn_encode, firstn_encode, IH by assumption. reflexivity.
Qed.

Lemma fields_representable_length cs vs :
  fields_representable cs vs -> List.length vs = List.length cs.
Proof.
  revert vs. induction cs as [|c cs IH]; intros [|v vs]; simpl; try tauto.
  intros [_ R]. f_equal. auto.
Qed.

Lemma SolverType_of_to_Z t : SolverType_of_Z (SolverType_to_Z t) = Some t.
Proof. destruct t; reflexivity. Qed.

Lemma FillMode_of_to_Z u : FillMode_of_Z (FillMode_to_Z u) = Some u.
Proof. destruct u; reflexivity. Qed.

Lemma EigMode_of_to_Z j : EigMode_of_Z (EigMode_to_Z j) = Some j.
Proof. destruct j; reflexivity. Qed.

Lemma schar_of_to_Z c : schar_of_Z (schar_to_Z c) = c.
Proof.
  destruct c as [[] [] [] [] [] [] [] []]; vm_compute; reflexivity.
Qed.

(** The general round trip: a well-formed record whose fields rebuild it
    comes back from its blob. *)
Lemma UnpackDescriptor_PackDescriptor {T : Type} `{Descriptor T} (d : T) :
  of_fields (to_fields d) = Some d ->
  well_formed d ->
  UnpackDescriptor (PackDescriptor d) = Some d.
Proof.
  intros B W. unfold UnpackDescriptor, PackDescriptor, well_formed in *.
  rewrite unpack_pack_fields by (now apply fields_representable_length).
  rewrite stored_representable; assumption.
Qed.

Ltac rebuild d :=
  destruct d; cbn [of_fields to_fields]; simpl;
  rewrite ?SolverType_of_to_Z, ?FillMode_of_to_Z, ?EigMode_of_to_Z, ?schar_of_to_Z;
  reflexivity.

(** C4. For a record of any operation family whose fields hold values of
    their C types, unpacking the packed blob gives the record back; [pack]
    is a total function (it has no failure result). *)
Theorem unpack_pack (d : OperationDescriptor) :
  well_formed_descriptor d ->
  unpack (family_of d) (pack d) = Some d.
Proof.
  destruct d as [x|x|x|x|x|x|x|x|x|x]; cbn [well_formed_descriptor family_of pack unpack];
    intros W; rewrite UnpackDescriptor_PackDescriptor; try reflexivity; try assumption;
    rebuild x.
Qed.

Lemma unpack_pack_witness :
  well_formed_descriptor
    (OfGesvd (Build_GesvdDescriptor C64 4 64 32 (-1) "S" "S")) /\
  unpack Gesvd (pack (OfGesvd (Build_GesvdDescriptor C64 4 64 32 (-1) "S" "S")))
  = Some (OfGesvd (Build_GesvdDescriptor C64 4 64 32 (-1) "S" "S")).
Proof.
  assert (W : well_formed_descriptor
                (OfGesvd (Build_GesvdDescriptor C64 4 64 32 (-1) "S" "S"))).
  { unfold well_formed_descriptor, well_formed. simpl. unfold schar_to_Z, wrap_signed.
    simpl. lia. }
  split; [exact W | exact (unpack_pack _ W)].
Defined.

(** ** Running a builder *)

(** Unfolds the statement layer of a builder. *)
Ltac unfold_builder :=
  unfold BuildPotrfDescriptor, BuildGetrfDescriptor, BuildGeqrfDescriptor,
    BuildCsrlsvqrDescriptor, BuildOrgqrDescriptor, BuildSyevdDescriptor,
    BuildSyevjDescriptor, BuildGesvdDescriptor, BuildGesvdjDescriptor,
    BuildSytrdDescriptor;
  unfold function, bind, resolve, Borrow, JAX_THROW_IF_ERROR, uninitialized_int,
    gpusolverDnCreateSyevjInfo, cusolverDnCreateGesvdjInfo, construct,
    bufferSize_or_throw, ret, throw.

(** Splits on the next thing the run of a builder depends on. *)
Ltac step_builder :=
  match goal with
  | |- context [match DtypeToSolverType ?d with _ => _ end] =>
      destruct (DtypeToSolverType d) as [[]|] eqn:?
  | |- context [match pool_available ?w with _ => _ end] =>
      destruct (pool_available w) eqn:?
  | |- context [match Borrow_status ?v with _ => _ end] =>
      destruct (Borrow_status v)
  | |- context [match CreateSyevjInfo_status ?v with _ => _ end] =>
      destruct (CreateSyevjInfo_status v)
  | |- context [match CreateGesvdjInfo_status ?v with _ => _ end] =>
      destruct (CreateGesvdjInfo_status v)
  | |- context [if ?b =? 1 then _ else _] => destruct (b =? 1) eqn:?
  | |- context [match bufferSize ?v ?q with _ => _ end] =>
      destruct (bufferSize v q) as [[] ?] eqn:?
  | |- context [match ?be with CUDA => _ | HIP => _ end] => destruct be
  end; cbn -[PackDescriptor to_int to_int64 size_t_mul size_t_add to_size_t].

Ltac run_builder :=
  unfold_builder; cbn -[PackDescriptor to_int to_int64 size_t_mul size_t_add to_size_t];
  repeat step_builder.

(** Every builder leaves the pool and the parameter objects as it found
    them, whatever the vendor answers. *)
Lemma BuildPotrfDescriptor_releases backend dt lower b n v w :
  let w' := snd (BuildPotrfDescriptor backend dt lower b n v w) in
  pool_available w' = pool_available w /\ live_infos w' = live_infos w.
Proof. run_builder; split; lia. Qed.

Lemma BuildGetrfDescriptor_releases dt b m n v w :
  let w' := snd (BuildGetrfDescriptor dt b m n v w) in
  pool_available w' = pool_available w /\ live_infos w' = live_infos w.
Proof. run_builder; split; lia. Qed.

Lemma BuildGeqrfDescriptor_releases dt b m n v w :
  let w' := snd (BuildGeqrfDescriptor dt b m n v w) in
  pool_available w' = pool_available w /\ live_infos w' = live_infos w.
Proof. run_builder; split; lia. Qed.

Lemma BuildCsrlsvqrDescriptor_releases dt n nnzA reorder tol v w :
  let w' := snd (BuildCsrlsvqrDescriptor dt n nnzA reorder tol v w) in
  pool_available w' = pool_available w /\ live_infos w' = live_infos w.
Proof. run_builder; split; lia. Qed.

Lemma BuildOrgqrDescriptor_releases dt b m n k v w :
  let w' := snd (BuildOrgqrDescriptor dt b m n k v w) in
  pool_available w' = pool_available w /\ live_infos w' = live_infos w.
Proof. run_builder; split; lia. Qed.

Lemma BuildSyevdDescriptor_releases dt lower b n v w :
  let w' := snd (BuildSyevdDescriptor dt lower b n v w) in
  pool_available w' = pool_available w /\ live_infos w' = live_infos w.
Proof. run_builder; split; lia. Qed.

Lemma BuildSyevjDescriptor_releases dt lower batch n v w :
  let w' := snd (BuildSyevjDescriptor dt lower batch n v w) in
  pool_available w' = pool_available w /\ live_infos w' = live_infos w.
Proof. run_builder; split; lia. Qed.

Lemma BuildGesvdDescriptor_releases dt b m n compute_uv full_matrices v w :
  let w' := snd (BuildGesvdDescriptor dt b m n compute_uv full_matrices v w) in
  pool_available w' = pool_available w /\ live_infos w' = live_infos w.
Proof. run_builder; split; lia. Qed.

Lemma BuildGesvdjDescriptor_releases dt batch m n compute_uv econ v w :
  let w' := snd (BuildGesvdjDescriptor dt batch m n compute_uv econ v w) in
  pool_available w' = pool_available w /\ live_infos w' = live_infos w.
Proof. run_builder; split; lia. Qed.

Lemma BuildSytrdDescriptor_releases dt lower b n v w :
  let w' := snd (BuildSytrdDescriptor dt lower b n v w) in
  pool_available w' = pool_available w /\ live_infos w' = live_infos w.
Proof. run_builder; split; lia. Qed.

Lemma snd_as_pair r : snd (as_pair r) = snd r.
Proof. destruct r as [[[? ?]|?] ?]; reflexivity. Qed.

Lemma snd_as_bytes r : snd (as_bytes r) = snd r.
Proof. destruct r as [[?|?] ?]; reflexivity. Qed.

(** C5. Every builder gives its borrowed handle back and destroys its
    algorithm-parameter object on every exit path: after a call, returned
    or thrown, whatever the resolver, the pool and the vendor answered,
    the pool has as many available handles as before and no more
    parameter objects are alive than before. *)
Theorem builders_release_on_every_path (backend : Backend) (c : BuilderCall)
    (v : Vendor) (w : Machine) :
  pool_available (snd (call backend c v w)) = pool_available w /\
  live_infos (snd (call backend c v w)) = live_infos w.
Proof.
  destruct c; cbn [call]; rewrite ?snd_as_pair, ?snd_as_bytes.
  - apply BuildPotrfDescriptor_releases.
  - apply BuildGetrfDescriptor_releases.
  - apply BuildGeqrfDescriptor_releases.
  - apply BuildOrgqrDescriptor_releases.
  - apply BuildSyevdDescriptor_releases.
  - apply BuildSyevjDescriptor_releases.
  - apply BuildGesvdDescriptor_releases.
  - apply BuildSytrdDescriptor_releases.
  - apply BuildCsrlsvqrDescriptor_releases.
  - apply BuildGesvdjDescriptor_releases.
Qed.

(** The failing paths are real: a throwing resolver, an empty pool, a
    failed parameter-object creation, a failed size query. *)
Example syevj_unsupported_dtype :
  BuildSyevjDescriptor float16 true 1 8 (vendor_ok 10 0) (machine_with 1)
  = (Throws (invalid_argument float16), machine_with 1).
Proof. reflexivity. Qed.

Example syevj_pool_exhausted :
  BuildSyevjDescriptor float32 true 1 8 (vendor_ok 10 0) (machine_with 0)
  = (Throws (runtime_error SolverHandlePool_Borrow ResourceExhausted), machine_with 0).
Proof. reflexivity. Qed.

Example syevj_create_fails :
  BuildSyevjDescriptor float32 true 1 8
    {| Borrow_status := OkStatus;
       CreateSyevjInfo_status := NotOk 7;
       CreateGesvdjInfo_status := OkStatus;
       bufferSize := fun _ => (OkStatus, 10);
       indeterminate_int := 0 |} (machine_with 1)
  = (Throws (runtime_error gpusolverDnCreateSyevjInfo_call (NotOk 7)), machine_with 1).
Proof. reflexivity. Qed.

Example syevj_query_fails :
  BuildSyevjDescriptor float32 true 1 8 (vendor_query_fails 3) (machine_with 1)
  = (Throws (runtime_error
               (bufferSize_call
                  (syevj_bufferSize F32 GPUSOLVER_EIG_MODE_VECTOR
                     GPUSOLVER_FILL_MODE_LOWER 8 8)) (NotOk 3)),
     {| pool_available := 1; live_infos := 0;
        queries := [syevj_bufferSize F32 GPUSOLVER_EIG_MODE_VECTOR
                      GPUSOLVER_FILL_MODE_LOWER 8 8] |}).
Proof. reflexivity. Qed.

Example gesvdj_query_fails :
  snd (BuildGesvdjDescriptor complex128 4 8 8 true 0 (vendor_query_fails 3)
         (machine_with 2))
  = {| pool_available := 2; live_infos := 0;
       queries := [gesvdjBatched_bufferSize C128 GPUSOLVER_EIG_MODE_VECTOR
                     8 8 8 8 8 4] |}.
Proof. reflexivity. Qed.

(** ** What is read back from a blob *)

Lemma UnpackDescriptor_stored {T : Type} `{Descriptor T} (d : T) :
  List.length (to_fields d) = List.length layout ->
  UnpackDescriptor (PackDescriptor d) = of_fields (stored layout (to_fields d)).
Proof.
  intros L. unfold UnpackDescriptor, PackDescriptor.
  now rewrite unpack_pack_fields.
Qed.

Lemma decode_encode_int v : decode c_int (encode c_int v) = to_int v.
Proof.
  unfold decode, encode. rewrite le_combine_split. simpl sizeof.
  change (Z.of_nat 4 * 8) with 32. apply (wrap_signed_of_mod 32). lia.
Qed.

Lemma decode_encode_SolverType t :
  decode c_enum (encode c_enum (SolverType_to_Z t)) = SolverType_to_Z t.
Proof. apply decode_encode. destruct t; simpl; lia. Qed.

Lemma decode_encode_schar c :
  decode c_schar (encode c_schar (schar_to_Z c)) = schar_to_Z c.
Proof.
  apply decode_encode. unfold representable, schar_to_Z. simpl sizeof.
  apply (wrap_signed_range 8). lia.
Qed.

(** A gesvd blob gives back the element type and the job flags as they
    were stored, and the [int] fields as [int]s. *)
Lemma Gesvd_unpack_pack type b m n lwork jobu jobvt :
  UnpackDescriptor (PackDescriptor (Build_GesvdDescriptor type b m n lwork jobu jobvt))
  = Some (Build_GesvdDescriptor type (to_int b) (to_int m) (to_int n) (to_int lwork)
            jobu jobvt).
Proof.
  rewrite UnpackDescriptor_stored by reflexivity.
  cbn [layout to_fields Descriptor_Gesvd stored of_fields gesvd_type gesvd_batch
       gesvd_m gesvd_n gesvd_lwork gesvd_jobu gesvd_jobvt].
  rewrite decode_encode_SolverType, !decode_encode_int, !decode_encode_schar.
  rewrite SolverType_of_to_Z, !schar_of_to_Z. reflexivity.
Qed.

Lemma Getrf_unpack_pack type b m n lwork :
  UnpackDescriptor (PackDescriptor (Build_GetrfDescriptor type b m n lwork))
  = Some (Build_GetrfDescriptor type (to_int b) (to_int m) (to_int n) (to_int lwork)).
Proof.
  rewrite UnpackDescriptor_stored by reflexivity.
  cbn [layout to_fields Descriptor_Getrf stored of_fields getrf_type getrf_batch
       getrf_m getrf_n getrf_lwork].
  rewrite decode_encode_SolverType, !decode_encode_int.
  rewrite SolverType_of_to_Z. reflexivity.
Qed.

(** ** Dense SVD: job flags *)

(** C6. The dense SVD builder uses 'A' for both job flags when
    [compute_uv] and [full_matrices] hold, 'S' for both when [compute_uv]
    holds and [full_matrices] does not, 'N' for both when [compute_uv]
    does not hold. With a resolved dtype, a handle to borrow and a
    successful size query it returns; the flags are the ones passed to
    the query and the ones stored in the packed descriptor, from which
    they are read back. *)
Theorem BuildGesvdDescriptor_job_flags
    (dt : dtype) (type : SolverType) (b m n : Z) (compute_uv full_matrices : bool)
    (flag : ascii) (v : Vendor) (w : Machine) (lwork : Z) :
  In (compute_uv, full_matrices, flag)
     [ (true, true, "A"%char); (true, false, "S"%char);
       (false, true, "N"%char); (false, false, "N"%char) ] ->
  DtypeToSolverType dt = Returns type ->
  pool_available w <> 0%nat ->
  Borrow_status v = OkStatus ->
  bufferSize v (gesvd_bufferSize type flag flag m n) = (OkStatus, lwork) ->
  let r := BuildGesvdDescriptor dt b m n compute_uv full_matrices v w in
  fst r = Returns (lwork,
                   PackDescriptor (Build_GesvdDescriptor type b m n lwork flag flag)) /\
  queries (snd r) = gesvd_bufferSize type flag flag m n :: queries w /\
  exists opaque d,
    opaque_of r = Some opaque /\
    UnpackDescriptor opaque = Some d /\
    gesvd_jobu d = flag /\ gesvd_jobvt d = flag.
Proof.
  intros Hflag Hdt Hpool Hborrow Hq r.
  assert (E : r = (Returns (lwork,
                     PackDescriptor (Build_GesvdDescriptor type b m n lwork flag flag)),
                   unwind [h_handle]
                     (query_logged (gesvd_bufferSize type flag flag m n) (pool_take w)))).
  { subst r. unfold_builder. rewrite Hdt. cbn.
    destruct (pool_available w) eqn:P; [contradiction|].
    rewrite Hborrow. cbn.
    assert (F : (if compute_uv then if full_matrices then "A" else "S" else "N")%char
                = flag).
    { simpl in Hflag.
      destruct Hflag as [H|[H|[H|[H|[]]]]]; inversion H; reflexivity. }
    rewrite F.
    destruct type;
      unfold gpusolverDnSgesvd_bufferSize, gpusolverDnDgesvd_bufferSize,
        gpusolverDnCgesvd_bufferSize, gpusolverDnZgesvd_bufferSize;
      rewrite Hq; reflexivity. }
  rewrite E. cbn [fst snd]. repeat split.
  eexists _, _. unfold opaque_of. cbn [fst].
  split; [reflexivity|]. rewrite Gesvd_unpack_pack. split; [reflexivity|].
  split; reflexivity.
Qed.

Lemma BuildGesvdDescriptor_job_flags_witness :
  let r := BuildGesvdDescriptor float64 4 64 32 false true
             (vendor_ok 10 0) (machine_with 1) in
  fst r = Returns (10, PackDescriptor (Build_GesvdDescriptor F64 4 64 32 10 "N" "N")) /\
  queries (snd r) = [gesvd_bufferSize F64 "N" "N" 64 32] /\
  exists opaque d,
    opaque_of r = Some opaque /\
    UnpackDescriptor opaque = Some d /\
    gesvd_jobu d = "N"%char /\ gesvd_jobvt d = "N"%char.
Proof.
  apply (BuildGesvdDescriptor_job_flags float64 F64 4 64 32 false true "N"
           (vendor_ok 10 0) (machine_with 1) 10).
  - simpl. auto.
  - reflexivity.
  - simpl. discriminate.
  - reflexivity.
  - reflexivity.
Defined.

(** ** LU factorisation: leading dimension and batch *)

Lemma BuildGetrfDescriptor_queries dt b m n v w :
  queries (snd (BuildGetrfDescriptor dt b m n v w)) = queries w \/
  exists type,
    queries (snd (BuildGetrfDescriptor dt b m n v w))
    = getrf_bufferSize type m n m :: queries w.
Proof.
  run_builder; cbn;
    solve [ left; reflexivity
          | right; eexists; reflexivity ].
Qed.

Lemma BuildGetrfDescriptor_size_ignores_b dt b b' m n v w :
  size_of (BuildGetrfDescriptor dt b m n v w)
  = size_of (BuildGetrfDescriptor dt b' m n v w).
Proof. unfold size_of. run_builder; reflexivity. Qed.

(** C7. In the LU builder every size query is issued with leading
    dimension [lda = m]; the size handed back is the answer to a query on
    [m], [n] and the element type alone, so it is the same for every
    batch count; and the packed descriptor stores the batch count [b],
    which is read back from it. *)
Theorem BuildGetrfDescriptor_lda_batch
    (dt : dtype) (type : SolverType) (b m n : Z) (v : Vendor) (w : Machine)
    (lwork : Z) :
  DtypeToSolverType dt = Returns type ->
  pool_available w <> 0%nat ->
  Borrow_status v = OkStatus ->
  bufferSize v (getrf_bufferSize type m n m) = (OkStatus, lwork) ->
  is_int b ->
  let r := BuildGetrfDescriptor dt b m n v w in
  fst r = Returns (lwork, PackDescriptor (Build_GetrfDescriptor type b m n lwork)) /\
  queries (snd r) = getrf_bufferSize type m n m :: queries w /\
  (forall b' v' w',
      let r' := BuildGetrfDescriptor dt b' m n v' w' in
      queries (snd r') = queries w' \/
      exists t, queries (snd r') = getrf_bufferSize t m n m :: queries w') /\
  (forall b', size_of (BuildGetrfDescriptor dt b' m n v w) = Some lwork) /\
  exists opaque d,
    opaque_of r = Some opaque /\
    UnpackDescriptor opaque = Some d /\
    getrf_batch d = b.
Proof.
  intros Hdt Hpool Hborrow Hq Hb r.
  assert (E : forall b0,
             BuildGetrfDescriptor dt b0 m n v w
             = (Returns (lwork,
                   PackDescriptor (Build_GetrfDescriptor type b0 m n lwork)),
                unwind [h_handle]
                  (query_logged (getrf_bufferSize type m n m) (pool_take w)))).
  { intros b0. unfold_builder. rewrite Hdt. cbn.
    destruct (pool_available w) eqn:P; [contradiction|].
    rewrite Hborrow. cbn.
    destruct type;
      unfold gpusolverDnSgetrf_bufferSize, gpusolverDnDgetrf_bufferSize,
        gpusolverDnCgetrf_bufferSize, gpusolverDnZgetrf_bufferSize;
      rewrite Hq; reflexivity. }
  subst r. rewrite E. cbn [fst snd]. repeat split.
  - intros b' v' w'. apply BuildGetrfDescriptor_queries.
  - intros b'. rewrite E. reflexivity.
  - eexists _, _. unfold opaque_of. cbn [fst].
    split; [reflexivity|]. rewrite Getrf_unpack_pack. split; [reflexivity|].
    cbn [getrf_batch]. now apply to_int_small.
Qed.

(** The example of the specification: C64, b = 4, m = 64, n = 32. *)
Lemma BuildGetrfDescriptor_lda_batch_witness :
  let r := BuildGetrfDescriptor complex64 4 64 32 (vendor_ok 10 0) (machine_with 1) in
  fst r = Returns (10, PackDescriptor (Build_GetrfDescriptor C64 4 64 32 10)) /\
  queries (snd r) = [getrf_bufferSize C64 64 32 64] /\
  (forall b' v' w',
      let r' := BuildGetrfDescriptor complex64 b' 64 32 v' w' in
      queries (snd r') = queries w' \/
      exists t, queries (snd r') = getrf_bufferSize t 64 32 64 :: queries w') /\
  (forall b', size_of (BuildGetrfDescriptor complex64 b' 64 32 (vendor_ok 10 0)
                         (machine_with 1)) = Some 10) /\
  exists opaque d,
    opaque_of r = Some opaque /\
    UnpackDescriptor opaque = Some d /\
    getrf_batch d = 4.
Proof.
  apply (BuildGetrfDescriptor_lda_batch complex64 C64 4 64 32
           (vendor_ok 10 0) (machine_with 1) 10).
  - reflexivity.
  - simpl. discriminate.
  - reflexivity.
  - reflexivity.
  - unfold is_int, INT_MIN, INT_MAX. lia.
Defined.

(** ** Determinism and the unassigned [lwork] *)

(** Away from the CUDA batched Cholesky path, a call depends on the vendor
    through its statuses and size-query answers only. *)
Lemma call_deterministic backend c v1 v2 w :
  same_answers v1 v2 ->
  potrf_reads_unassigned backend c = false ->
  call backend c v1 w = call backend c v2 w.
Proof.
  intros (Hb & Hs & Hg & Hq). unfold potrf_reads_unassigned.
  destruct c; cbn [call]; intros Hp;
    first [apply (f_equal as_pair) | apply (f_equal as_bytes)]; revert Hp;
    unfold_builder;
    cbn -[PackDescriptor to_int to_int64 size_t_mul size_t_add to_size_t];
    repeat (rewrite ?Hb, ?Hs, ?Hg; repeat rewrite Hq; step_builder);
    intros Hp; solve [reflexivity | discriminate Hp].
Qed.

(** C8 fails on the CUDA batched Cholesky path: two calls with the same
    arguments, the same pool and the same vendor answers hand back the
    same size and different blobs, because the packed [lwork] is whatever
    the unassigned variable held. *)
Theorem potrf_cuda_batched_blob_varies :
  same_answers (vendor_ok 10 0) (vendor_ok 10 1) /\
  size_of (BuildPotrfDescriptor CUDA float32 true 2 4 (vendor_ok 10 0) (machine_with 1))
  = size_of (BuildPotrfDescriptor CUDA float32 true 2 4 (vendor_ok 10 1) (machine_with 1)) /\
  opaque_of (BuildPotrfDescriptor CUDA float32 true 2 4 (vendor_ok 10 0) (machine_with 1))
  <> opaque_of (BuildPotrfDescriptor CUDA float32 true 2 4 (vendor_ok 10 1) (machine_with 1)).
Proof.
  split; [|split].
  - repeat split.
  - reflexivity.
  - vm_compute. discriminate.
Qed.

(** On CUDA, with any batch count other than 1, the Cholesky builder
    issues no size query and packs the unassigned [lwork]. *)
Lemma BuildPotrfDescriptor_cuda_batched_run dt type lower b n v w :
  DtypeToSolverType dt = Returns type ->
  pool_available w <> 0%nat ->
  Borrow_status v = OkStatus ->
  b <> 1 ->
  fst (BuildPotrfDescriptor CUDA dt lower b n v w)
  = Returns (to_int (to_int64 (size_t_mul sizeof_pointer (to_size_t b))),
             PackDescriptor
               (Build_PotrfDescriptor type (fill_mode lower) b n (indeterminate_int v)))
  /\ queries (snd (BuildPotrfDescriptor CUDA dt lower b n v w)) = queries w.
Proof.
  intros Hdt Hpool Hborrow Hb. unfold_builder. rewrite Hdt. cbn.
  destruct (pool_available w) eqn:P; [contradiction|].
  rewrite Hborrow. cbn -[to_int to_int64 size_t_mul to_size_t PackDescriptor].
  destruct (Z.eqb_spec b 1); [contradiction|].
  split; reflexivity.
Qed.

(** C9 fails on the CUDA batched Cholesky path: the builder returns
    without having issued any size query, and the [lwork] it packs is the
    unassigned value, whatever the vendor would have answered. *)
Theorem potrf_cuda_batched_lwork_unassigned (answer garbage : Z) :
  BuildPotrfDescriptor CUDA float32 true 2 4 (vendor_ok answer garbage) (machine_with 1)
  = (Returns (16,
       PackDescriptor
         (Build_PotrfDescriptor F32 GPUSOLVER_FILL_MODE_LOWER 2 4 garbage)),
     machine_with 1) /\
  queries (snd (BuildPotrfDescriptor CUDA float32 true 2 4 (vendor_ok answer garbage)
                  (machine_with 1))) = [] /\
  UnpackDescriptor
    (PackDescriptor (Build_PotrfDescriptor F32 GPUSOLVER_FILL_MODE_LOWER 2 4 garbage))
  = Some (Build_PotrfDescriptor F32 GPUSOLVER_FILL_MODE_LOWER 2 4 (to_int garbage)).
Proof.
  split; [reflexivity|]. split; [reflexivity|].
  rewrite UnpackDescriptor_stored by reflexivity.
  cbn [layout to_fields Descriptor_Potrf stored of_fields potrf_type potrf_uplo
       potrf_batch potrf_n potrf_lwork].
  rewrite !decode_encode_int. reflexivity.
Qed.

(** ** Sizes handed back *)

(** The size the Cholesky builder hands back when nothing fails: the byte
    count of its path, narrowed to [int]. *)
Lemma BuildPotrfDescriptor_size backend dt type lower b n v w lwork :
  DtypeToSolverType dt = Returns type ->
  pool_available w <> 0%nat ->
  Borrow_status v = OkStatus ->
  (forall q, potrf_size_query backend type (fill_mode lower) b n = Some q ->
             bufferSize v q = (OkStatus, lwork)) ->
  size_of (BuildPotrfDescriptor backend dt lower b n v w)
  = Some (to_int (potrf_byte_count backend type b lwork)).
Proof.
  intros Hdt Hpool Hborrow Hq. unfold size_of. unfold_builder. rewrite Hdt. cbn.
  destruct (pool_available w) eqn:P; [contradiction|].
  rewrite Hborrow. cbn -[to_int to_int64 size_t_mul size_t_add to_size_t PackDescriptor].
  unfold potrf_size_query, potrf_byte_count in *.
  destruct (b =? 1).
  - specialize (Hq _ eq_refl).
    destruct type;
      unfold gpusolverDnSpotrf_bufferSize, gpusolverDnDpotrf_bufferSize,
        gpusolverDnCpotrf_bufferSize, gpusolverDnZpotrf_bufferSize;
      rewrite Hq; cbn -[to_int to_int64 size_t_mul size_t_add to_size_t PackDescriptor];
      f_equal; apply to_int_size_t_mul.
  - destruct backend.
    + cbn -[to_int to_int64 size_t_mul size_t_add to_size_t PackDescriptor].
      f_equal. apply to_int_size_t_mul_r.
    + specialize (Hq _ eq_refl).
      destruct type;
        unfold hipsolverSpotrfBatched_bufferSize, hipsolverDpotrfBatched_bufferSize,
          hipsolverCpotrfBatched_bufferSize, hipsolverZpotrfBatched_bufferSize;
        rewrite Hq; cbn -[to_int to_int64 size_t_mul size_t_add to_size_t PackDescriptor];
        f_equal; apply to_int_size_t_add_mul.
Qed.

(** For [int] inputs the byte count fits the 64-bit variable it is
    computed in. *)
Lemma potrf_byte_count_int64 backend type b lwork :
  is_int lwork -> is_int b ->
  - 2 ^ 63 <= potrf_byte_count backend type b lwork < 2 ^ 63.
Proof.
  unfold is_int, INT_MIN, INT_MAX, potrf_byte_count, sizeof_pointer.
  intros Hl Hb.
  destruct (b =? 1); [|destruct backend]; destruct type; simpl sizeof_elem;
    unfold sizeof_float, sizeof_double, sizeof_gpuComplex, sizeof_gpuDoubleComplex;
    lia.
Qed.

(** C10, as amended. The Cholesky builder hands back its byte count
    (lwork x element width when b = 1, b x pointer width on the CUDA
    batched path, lwork x element width + b x pointer width on the HIP
    batched path), which fits the 64-bit variable it is computed in,
    narrowed to a 32-bit [int]: the count itself when it is representable
    as an [int], and otherwise a different value congruent to it modulo
    2^32. *)
Theorem BuildPotrfDescriptor_narrows
    (backend : Backend) (dt : dtype) (type : SolverType) (lower : bool) (b n : Z)
    (v : Vendor) (w : Machine) (lwork : Z) :
  DtypeToSolverType dt = Returns type ->
  pool_available w <> 0%nat ->
  Borrow_status v = OkStatus ->
  (forall q, potrf_size_query backend type (fill_mode lower) b n = Some q ->
             bufferSize v q = (OkStatus, lwork)) ->
  is_int lwork ->
  is_int b ->
  let count := potrf_byte_count backend type b lwork in
  - 2 ^ 63 <= count < 2 ^ 63 /\
  exists size,
    size_of (BuildPotrfDescriptor backend dt lower b n v w) = Some size /\
    is_int size /\
    size mod 2 ^ 32 = count mod 2 ^ 32 /\
    (is_int count -> size = count) /\
    (~ is_int count -> size <> count).
Proof.
  intros Hdt Hpool Hborrow Hq Hl Hb count.
  split; [now apply potrf_byte_count_int64|].
  exists (to_int count). split; [|split; [|split; [|split]]].
  - now apply BuildPotrfDescriptor_size.
  - apply to_int_is_int.
  - apply to_int_mod.
  - apply to_int_small.
  - intros N E. apply N. rewrite <- E. apply to_int_is_int.
Qed.

Lemma BuildPotrfDescriptor_narrows_witness :
  - 2 ^ 63 <= potrf_byte_count CUDA F32 1073741824 10 < 2 ^ 63 /\
  exists size,
    size_of (BuildPotrfDescriptor CUDA float32 true 1073741824 4
               (vendor_ok 10 0) (machine_with 1)) = Some size /\
    is_int size /\
    size mod 2 ^ 32 = potrf_byte_count CUDA F32 1073741824 10 mod 2 ^ 32 /\
    (is_int (potrf_byte_count CUDA F32 1073741824 10) ->
     size = potrf_byte_count CUDA F32 1073741824 10) /\
    (~ is_int (potrf_byte_count CUDA F32 1073741824 10) ->
     size <> potrf_byte_count CUDA F32 1073741824 10).
Proof.
  apply (BuildPotrfDescriptor_narrows CUDA float32 F32 true 1073741824 4
           (vendor_ok 10 0) (machine_with 1) 10).
  - reflexivity.
  - simpl. discriminate.
  - reflexivity.
  - intros q _. reflexivity.
  - unfold is_int, INT_MIN, INT_MAX. lia.
  - unfold is_int, INT_MIN, INT_MAX. lia.
Defined.

(** C10 as stated fails on the HIP batched path: there the computed count
    is not lwork x element width but that plus b x pointer width. With
    float32, b = 2 and a query answering 10, lwork x element width is 40,
    which fits an [int], and the size handed back is 56. *)
Lemma potrf_hip_batched_count_has_pointers :
  bufferSize (vendor_ok 10 0)
    (potrfBatched_bufferSize F32 GPUSOLVER_FILL_MODE_LOWER 4 4 2) = (OkStatus, 10) /\
  is_int (10 * sizeof_elem F32) /\
  size_of (BuildPotrfDescriptor HIP float32 true 2 4 (vendor_ok 10 0) (machine_with 1))
  = Some 56 /\
  size_of (BuildPotrfDescriptor HIP float32 true 2 4 (vendor_ok 10 0) (machine_with 1))
  <> Some (10 * sizeof_elem F32).
Proof.
  split; [reflexivity|]. split.
  - unfold is_int, INT_MIN, INT_MAX. simpl. lia.
  - split; [reflexivity|]. vm_compute. discriminate.
Qed.

(** Narrowing at work: 2^30 pointers take 2^33 bytes, handed back as 0;
    a single F64 matrix with lwork = 2^28 takes 2^31 bytes, handed back
    as -2^31. *)
Example potrf_narrowed_to_zero :
  size_of (BuildPotrfDescriptor CUDA float32 true 1073741824 4
             (vendor_ok 10 0) (machine_with 1)) = Some 0.
Proof. reflexivity. Qed.

Example potrf_narrowed_negative :
  size_of (BuildPotrfDescriptor HIP float64 true 1 4
             (vendor_ok 268435456 0) (machine_with 1)) = Some (-2147483648).
Proof. reflexivity. Qed.




(** C1 as stated fails: the LU builder hands back the element count the
    query reported, not that count times the element width. *)
Lemma getrf_size_is_element_count :
  bufferSize (vendor_ok 10 0) (getrf_bufferSize F32 8 8 8) = (OkStatus, 10) /\
  size_of (BuildGetrfDescriptor float32 1 8 8 (vendor_ok 10 0) (machine_with 1))
  = Some 10 /\
  size_of (BuildGetrfDescriptor float32 1 8 8 (vendor_ok 10 0) (machine_with 1))
  <> Some (10 * sizeof_elem F32).
Proof.
  split; [reflexivity|]. split; [reflexivity|]. vm_compute. discriminate.
Qed.

Ltac returned H :=
  cbn in H; try discriminate H; injection H as <- <-.

(** C1, as amended. Whenever a builder returns a size, it is determined
    by the answer [lwork] of the one size query the call issued: the
    Cholesky builder hands back a byte count narrowed to [int] (lwork x
    element width when b = 1; that plus b x pointer width on the HIP
    batched path; b x pointer width, with no query at all, on the CUDA
    batched path), equal to the count whenever the count fits an [int];
    every other builder hands back [lwork] itself, an element count. *)
Theorem workspace_size_of_builders
    (backend : Backend) (c : BuilderCall) (v : Vendor) (w : Machine)
    (size : Z) (opaque : Bytes) :
  fst (call backend c v w) = Returns (py_pair size opaque) ->
  match c with
  | build_potrf_descriptor dt lower b n =>
      exists type,
        DtypeToSolverType dt = Returns type /\
        match potrf_size_query backend type (fill_mode lower) b n with
        | Some q =>
            exists lwork,
              bufferSize v q = (OkStatus, lwork) /\
              queries (snd (call backend c v w)) = q :: queries w /\
              size = to_int (potrf_byte_count backend type b lwork) /\
              (is_int (potrf_byte_count backend type b lwork) ->
               size = potrf_byte_count backend type b lwork)
        | None =>
            queries (snd (call backend c v w)) = queries w /\
            size = to_int (b * sizeof_pointer) /\
            (is_int (b * sizeof_pointer) -> size = b * sizeof_pointer)
        end
  | _ =>
      exists q lwork,
        bufferSize v q = (OkStatus, lwork) /\
        queries (snd (call backend c v w)) = q :: queries w /\
        size = lwork
  end.
Proof.
  destruct c; cbn [call].
  (* potrf: every path that returns *)
  - unfold potrf_size_query, potrf_byte_count.
    run_builder; intros H; returned H; (eexists; split; [reflexivity|]);
      cbn -[to_int to_int64 size_t_mul size_t_add to_size_t PackDescriptor];
      try (eexists; split; [eassumption|]);
      rewrite ?to_int_size_t_mul, ?to_int_size_t_mul_r, ?to_int_size_t_add_mul;
      repeat split; try reflexivity; intros F; apply to_int_small; exact F.
  (* builders that hand back lwork *)
  - run_builder; intros H; returned H; eexists _, _; repeat split; eassumption.
  - run_builder; intros H; returned H; eexists _, _; repeat split; eassumption.
  - run_builder; intros H; returned H; eexists _, _; repeat split; eassumption.
  - run_builder; intros H; returned H; eexists _, _; repeat split; eassumption.
  - run_builder; intros H; returned H; eexists _, _; repeat split; eassumption.
  - run_builder; intros H; returned H; eexists _, _; repeat split; eassumption.
  - run_builder; intros H; returned H; eexists _, _; repeat split; eassumption.
  - run_builder; intros H; cbn in H; discriminate H.
  - run_builder; intros H; returned H; eexists _, _; repeat split; eassumption.
Qed.

Lemma workspace_size_of_builders_witness :
  exists type,
    DtypeToSolverType float32 = Returns type /\
    match potrf_size_query HIP type (fill_mode true) 2 4 with
    | Some q =>
        exists lwork,
          bufferSize (vendor_ok 10 0) q = (OkStatus, lwork) /\
          queries (snd (call HIP (build_potrf_descriptor float32 true 2 4)
                          (vendor_ok 10 0) (machine_with 1)))
          = q :: queries (machine_with 1) /\
          56 = to_int (potrf_byte_count HIP type 2 lwork) /\
          (is_int (potrf_byte_count HIP type 2 lwork) ->
           56 = potrf_byte_count HIP type 2 lwork)
    | None =>
        queries (snd (call HIP (build_potrf_descriptor float32 true 2 4)
                        (vendor_ok 10 0) (machine_with 1)))
        = queries (machine_with 1) /\
        56 = to_int (2 * sizeof_pointer) /\
        (is_int (2 * sizeof_pointer) -> 56 = 2 * sizeof_pointer)
    end.
Proof.
  apply (workspace_size_of_builders HIP (build_potrf_descriptor float32 true 2 4)
           (vendor_ok 10 0) (machine_with 1) 56
           (PackDescriptor
              (Build_PotrfDescriptor F32 GPUSOLVER_FILL_MODE_LOWER 2 4 10))).
  reflexivity.
Defined.

(** A call returns as soon as the dtype is supported, the pool has a
    handle and the vendor reports success everywhere. *)
Lemma call_returns backend c v w type :
  DtypeToSolverType (dtype_of c) = Returns type ->
  pool_available w <> 0%nat ->
  Borrow_status v = OkStatus ->
  CreateSyevjInfo_status v = OkStatus ->
  CreateGesvdjInfo_status v = OkStatus ->
  (forall q, fst (bufferSize v q) = OkStatus) ->
  exists r, fst (call backend c v w) = Returns r.
Proof.
  intros Hdt Hpool Hb Hs Hg Hq.
  destruct c; cbn [call dtype_of] in *; unfold_builder; rewrite Hdt;
    cbn -[PackDescriptor to_int to_int64 size_t_mul size_t_add to_size_t];
    (destruct (pool_available w) eqn:P; [contradiction|]); rewrite ?Hb;
    cbn -[PackDescriptor to_int to_int64 size_t_mul size_t_add to_size_t];
    rewrite ?Hs, ?Hg;
    cbn -[PackDescriptor to_int to_int64 size_t_mul size_t_add to_size_t];
    try destruct type;
    repeat step_builder;
    try (eexists; reflexivity);
    exfalso;
    match goal with
    | E : bufferSize v ?q = _ |- _ =>
        let X := fresh in pose proof (Hq q) as X; rewrite E in X; discriminate X
    end.
Qed.

(* ===================================================================== *)
(** * Further properties of the builders *)
(* ===================================================================== *)

(** ** Failures *)

Lemma DtypeToSolverType_Throws np_type e :
  DtypeToSolverType np_type = Throws e -> e = invalid_argument np_type.
Proof.
  unfold DtypeToSolverType.
  destruct (find (kind np_type, itemsize np_type) types); congruence.
Qed.

(** A machine whose pool gave a handle and got it back is the machine
    before. *)
Lemma give_back_take w :
  pool_available w <> 0%nat -> pool_give_back (pool_take w) = w.
Proof.
  destruct w as [[|k] i q]; unfold pool_give_back, pool_take; simpl; congruence.
Qed.

(** X1. With an unsupported dtype every builder throws the resolver's
    exception, carrying that dtype, before anything else happens: no
    handle is borrowed, no parameter object is created and no size query
    is issued. *)
Theorem unsupported_dtype_throws_first
    (backend : Backend) (c : BuilderCall) (v : Vendor) (w : Machine) (e : exception) :
  DtypeToSolverType (dtype_of c) = Throws e ->
  call backend c v w = (Throws (invalid_argument (dtype_of c)), w).
Proof.
  intros H. pose proof (DtypeToSolverType_Throws _ _ H) as ->.
  destruct c; cbn [call dtype_of] in *; unfold_builder; rewrite H; reflexivity.
Qed.

Lemma unsupported_dtype_throws_first_witness :
  call HIP (build_syevd_descriptor float16 true 3 8) (vendor_ok 10 0) (machine_with 2)
  = (Throws (invalid_argument float16), machine_with 2).
Proof.
  apply (unsupported_dtype_throws_first HIP (build_syevd_descriptor float16 true 3 8)
           (vendor_ok 10 0) (machine_with 2) (invalid_argument float16)).
  reflexivity.
Defined.

(** X2. When no handle can be borrowed (the pool is empty, or the borrow
    reports a failed status), every builder that uses a handle throws a
    runtime error naming the borrow and carrying its status, and leaves
    the machine as it was: no parameter object was created and no size
    query was issued. *)
Theorem borrow_failure_throws
    (backend : Backend) (c : BuilderCall) (v : Vendor) (w : Machine)
    (type : SolverType) (st : Status) :
  DtypeToSolverType (dtype_of c) = Returns type ->
  family_of_call c <> Csrlsvqr ->
  (pool_available w = 0%nat /\ st = ResourceExhausted) \/
  (pool_available w <> 0%nat /\ Borrow_status v = st /\ st <> OkStatus) ->
  call backend c v w = (Throws (runtime_error SolverHandlePool_Borrow st), w).
Proof.
  intros Hdt Hc Hst.
  destruct c; cbn [call dtype_of family_of_call] in *; try congruence;
    unfold_builder; rewrite Hdt; cbn;
    (destruct Hst as [[P ->]|(P & B & N)];
     [ rewrite P; reflexivity
     | destruct (pool_available w); [congruence|];
       rewrite B; destruct st; [congruence | reflexivity | reflexivity] ]).
Qed.

Lemma borrow_failure_throws_witness :
  call CUDA (build_gesvdj_descriptor complex64 2 8 8 true 0)
    (vendor_ok 10 0) (machine_with 0)
  = (Throws (runtime_error SolverHandlePool_Borrow ResourceExhausted), machine_with 0).
Proof.
  apply (borrow_failure_throws CUDA (build_gesvdj_descriptor complex64 2 8 8 true 0)
           (vendor_ok 10 0) (machine_with 0) C64 ResourceExhausted).
  - reflexivity.
  - discriminate.
  - left. split; reflexivity.
Defined.

(** X3. The sparse-solve builder uses neither the pool nor the vendor:
    with a supported dtype it returns the packed parameters on every
    machine, an empty pool included, and whatever the vendor would answer;
    the machine is left untouched. *)
Theorem BuildCsrlsvqrDescriptor_pure
    (dt : dtype) (type : SolverType) (n nnzA reorder tol : Z)
    (v : Vendor) (w : Machine) :
  DtypeToSolverType dt = Returns type ->
  BuildCsrlsvqrDescriptor dt n nnzA reorder tol v w
  = (Returns (PackDescriptor (Build_CsrlsvqrDescriptor type n nnzA reorder tol)), w).
Proof.
  intros Hdt. unfold_builder. rewrite Hdt. reflexivity.
Qed.

Lemma BuildCsrlsvqrDescriptor_pure_witness :
  BuildCsrlsvqrDescriptor float64 100 500 1 0 (vendor_query_fails 3) (machine_with 0)
  = (Returns (PackDescriptor (Build_CsrlsvqrDescriptor F64 100 500 1 0)),
     machine_with 0).
Proof.
  apply (BuildCsrlsvqrDescriptor_pure float64 F64 100 500 1 0
           (vendor_query_fails 3) (machine_with 0)).
  reflexivity.
Defined.

(** X4. A call issues at most one size query, whatever path it takes, and
    never drops a query from the log. *)
Theorem at_most_one_size_query
    (backend : Backend) (c : BuilderCall) (v : Vendor) (w : Machine) :
  queries (snd (call backend c v w)) = queries w \/
  exists q, queries (snd (call backend c v w)) = q :: queries w.
Proof.
  destruct c; cbn [call]; rewrite ?snd_as_pair, ?snd_as_bytes;
    run_builder; cbn;
    solve [ left; reflexivity | right; eexists; reflexivity ].
Qed.

(** X5. A thrown size-query error names the query that was issued and
    carries the failed status the vendor gave for it; that query is the
    one the call logged. *)
Theorem size_query_error_identifies_query
    (backend : Backend) (c : BuilderCall) (v : Vendor) (w : Machine)
    (q : BufferSizeCall) (st : Status) :
  fst (call backend c v w) = Throws (runtime_error (bufferSize_call q) st) ->
  queries (snd (call backend c v w)) = q :: queries w /\
  fst (bufferSize v q) = st /\
  st <> OkStatus.
Proof.
  destruct c; cbn [call];
    run_builder; intros H; cbn in H; try discriminate H;
    try (match goal with
         | E : DtypeToSolverType _ = Throws _ |- _ =>
             apply DtypeToSolverType_Throws in E; subst; discriminate H
         end);
    injection H as <- <-; cbn;
    match goal with
    | E : bufferSize _ _ = _ |- _ => rewrite E
    end;
    repeat split; discriminate.
Qed.

Lemma size_query_error_identifies_query_witness :
  queries (snd (call HIP (build_orgqr_descriptor float32 1 8 4 4)
                  (vendor_query_fails 6) (machine_with 1)))
  = orgqr_bufferSize F32 8 4 4 8 :: queries (machine_with 1) /\
  fst (bufferSize (vendor_query_fails 6) (orgqr_bufferSize F32 8 4 4 8)) = NotOk 6 /\
  NotOk 6 <> OkStatus.
Proof.
  apply (size_query_error_identifies_query HIP (build_orgqr_descriptor float32 1 8 4 4)
           (vendor_query_fails 6) (machine_with 1)).
  reflexivity.
Defined.

(** X6. In the two Jacobi builders a failed creation of the
    algorithm-parameter object is thrown with the creating call and its
    status before any size query is issued; the borrowed handle is back in
    the pool and no parameter object is left. *)
Theorem parameter_object_failure_throws
    (dt : dtype) (type : SolverType) (v : Vendor) (w : Machine) :
  DtypeToSolverType dt = Returns type ->
  pool_available w <> 0%nat ->
  Borrow_status v = OkStatus ->
  (CreateSyevjInfo_status v <> OkStatus ->
   forall lower batch n,
     BuildSyevjDescriptor dt lower batch n v w
     = (Throws (runtime_error gpusolverDnCreateSyevjInfo_call
                  (CreateSyevjInfo_status v)), w)) /\
  (CreateGesvdjInfo_status v <> OkStatus ->
   forall batch m n compute_uv econ,
     BuildGesvdjDescriptor dt batch m n compute_uv econ v w
     = (Throws (runtime_error cusolverDnCreateGesvdjInfo_call
                  (CreateGesvdjInfo_status v)), w)).
Proof.
  intros Hdt Hpool Hborrow.
  split; intros Hst; intros; unfold_builder; rewrite Hdt; cbn;
    (destruct (pool_available w) eqn:P; [contradiction|]);
    rewrite Hborrow; cbn.
  - destruct (CreateSyevjInfo_status v); [congruence| |]; cbn;
      (rewrite give_back_take by congruence); reflexivity.
  - destruct (CreateGesvdjInfo_status v); [congruence| |]; cbn;
      (rewrite give_back_take by congruence); reflexivity.
Qed.

Lemma parameter_object_failure_throws_witness :
  BuildSyevjDescriptor float32 true 4 8
    {| Borrow_status := OkStatus;
       CreateSyevjInfo_status := NotOk 7;
       CreateGesvdjInfo_status := OkStatus;
       bufferSize := fun _ => (OkStatus, 10);
       indeterminate_int := 0 |} (machine_with 1)
  = (Throws (runtime_error gpusolverDnCreateSyevjInfo_call (NotOk 7)), machine_with 1).
Proof.
  apply (proj1 (parameter_object_failure_throws float32 F32
                  {| Borrow_status := OkStatus;
                     CreateSyevjInfo_status := NotOk 7;
                     CreateGesvdjInfo_status := OkStatus;
                     bufferSize := fun _ => (OkStatus, 10);
                     indeterminate_int := 0 |} (machine_with 1)
                  eq_refl ltac:(simpl; discriminate) eq_refl)).
  simpl. discriminate.
Defined.

(** Like [step_builder], keeping an equation for everything it splits on. *)
Ltac step_builder_eqn :=
  match goal with
  | |- context [match pool_available ?w with _ => _ end] =>
      destruct (pool_available w) eqn:?
  | |- context [match Borrow_status ?v with _ => _ end] =>
      destruct (Borrow_status v) eqn:?
  | |- context [match CreateSyevjInfo_status ?v with _ => _ end] =>
      destruct (CreateSyevjInfo_status v) eqn:?
  | |- context [match CreateGesvdjInfo_status ?v with _ => _ end] =>
      destruct (CreateGesvdjInfo_status v) eqn:?
  | |- context [if ?b =? 1 then _ else _] => destruct (b =? 1) eqn:?
  | |- context [match bufferSize ?v ?q with _ => _ end] =>
      destruct (bufferSize v q) as [[] ?] eqn:?
  | |- context [match ?be with CUDA => _ | HIP => _ end] => destruct be
  end; cbn -[PackDescriptor to_int to_int64 size_t_mul size_t_add to_size_t].

(** Closes a goal in which a size query is recorded as failed although
    all of them succeed. *)
Ltac absurd_query Hq :=
  match goal with
  | E : bufferSize _ ?q = _ |- _ =>
      let X := fresh in pose proof (Hq q) as X; rewrite E in X; discriminate X
  end.

(** X7. When the dtype is supported and the vendor's size queries
    succeed, a builder returns exactly when every acquisition it makes
    succeeded: the sparse-solve builder always; the others when the pool
    has a handle and the borrow is OK and, for the two Jacobi builders,
    their parameter object was created. *)
Theorem call_returns_iff
    (backend : Backend) (c : BuilderCall) (v : Vendor) (w : Machine)
    (type : SolverType) :
  DtypeToSolverType (dtype_of c) = Returns type ->
  (forall q, fst (bufferSize v q) = OkStatus) ->
  (exists r, fst (call backend c v w) = Returns r) <->
  (family_of_call c = Csrlsvqr \/
   (pool_available w <> 0%nat /\
    Borrow_status v = OkStatus /\
    (family_of_call c = Syevj -> CreateSyevjInfo_status v = OkStatus) /\
    (family_of_call c = Gesvdj -> CreateGesvdjInfo_status v = OkStatus))).
Proof.
  intros Hdt Hq.
  destruct c; cbn [call dtype_of family_of_call] in *; unfold_builder; rewrite Hdt;
    cbn -[PackDescriptor to_int to_int64 size_t_mul size_t_add to_size_t];
    destruct type; repeat step_builder_eqn;
    try absurd_query Hq;
    (split;
     [ intros [r H]; cbn in H; try discriminate H;
       first [ left; reflexivity
             | right; repeat split; try congruence; intros; congruence ]
     | intros [Hc|(P & B & S & G)];
       try discriminate Hc;
       try (eexists; reflexivity);
       try congruence;
       try (specialize (S eq_refl); congruence);
       try (specialize (G eq_refl); congruence) ]).
Qed.

Lemma call_returns_iff_witness :
  (exists r, fst (call CUDA (build_syevj_descriptor float32 true 4 8)
                    (vendor_ok 10 0) (machine_with 0)) = Returns r) <->
  (family_of_call (build_syevj_descriptor float32 true 4 8) = Csrlsvqr \/
   (pool_available (machine_with 0) <> 0%nat /\
    Borrow_status (vendor_ok 10 0) = OkStatus /\
    (family_of_call (build_syevj_descriptor float32 true 4 8) = Syevj ->
     CreateSyevjInfo_status (vendor_ok 10 0) = OkStatus) /\
    (family_of_call (build_syevj_descriptor float32 true 4 8) = Gesvdj ->
     CreateGesvdjInfo_status (vendor_ok 10 0) = OkStatus))).
Proof.
  apply (call_returns_iff CUDA (build_syevj_descriptor float32 true 4 8)
           (vendor_ok 10 0) (machine_with 0) F32).
  - reflexivity.
  - intros q. reflexivity.
Defined.

(** ** Successful runs *)

Ltac unfold_queries :=
  unfold gpusolverDnSpotrf_bufferSize, gpusolverDnDpotrf_bufferSize,
    gpusolverDnCpotrf_bufferSize, gpusolverDnZpotrf_bufferSize,
    hipsolverSpotrfBatched_bufferSize, hipsolverDpotrfBatched_bufferSize,
    hipsolverCpotrfBatched_bufferSize, hipsolverZpotrfBatched_bufferSize,
    gpusolverDnSgetrf_bufferSize, gpusolverDnDgetrf_bufferSize,
    gpusolverDnCgetrf_bufferSize, gpusolverDnZgetrf_bufferSize,
    gpusolverDnSgeqrf_bufferSize, gpusolverDnDgeqrf_bufferSize,
    gpusolverDnCgeqrf_bufferSize, gpusolverDnZgeqrf_bufferSize,
    gpusolverDnSorgqr_bufferSize, gpusolverDnDorgqr_bufferSize,
    gpusolverDnCungqr_bufferSize, gpusolverDnZungqr_bufferSize,
    gpusolverDnSsyevd_bufferSize, gpusolverDnDsyevd_bufferSize,
    gpusolverDnCheevd_bufferSize, gpusolverDnZheevd_bufferSize,
    gpusolverDnSsyevj_bufferSize, gpusolverDnDsyevj_bufferSize,
    gpusolverDnCheevj_bufferSize, gpusolverDnZheevj_bufferSize,
    gpusolverDnSsyevjBatched_bufferSize, gpusolverDnDsyevjBatched_bufferSize,
    gpusolverDnCheevjBatched_bufferSize, gpusolverDnZheevjBatched_bufferSize,
    gpusolverDnSgesvd_bufferSize, gpusolverDnDgesvd_bufferSize,
    gpusolverDnCgesvd_bufferSize, gpusolverDnZgesvd_bufferSize,
    cusolverDnSgesvdj_bufferSize, cusolverDnDgesvdj_bufferSize,
    cusolverDnCgesvdj_bufferSize, cusolverDnZgesvdj_bufferSize,
    cusolverDnSgesvdjBatched_bufferSize, cusolverDnDgesvdjBatched_bufferSize,
    cusolverDnCgesvdjBatched_bufferSize, cusolverDnZgesvdjBatched_bufferSize,
    gpusolverDnSsytrd_bufferSize, gpusolverDnDsytrd_bufferSize,
    gpusolverDnChetrd_bufferSize, gpusolverDnZhetrd_bufferSize.

(** After a query in between, giving the handle back (and destroying the
    parameter object created meanwhile) leaves the machine with one more
    logged query and nothing else changed. *)
Lemma give_back_after_query q w :
  pool_available w <> 0%nat ->
  pool_give_back (query_logged q (pool_take w)) = query_logged q w.
Proof.
  destruct w as [[|k] i l]; unfold pool_give_back, query_logged, pool_take; simpl;
    congruence.
Qed.

Lemma give_back_destroy_after_query q w :
  pool_available w <> 0%nat ->
  pool_give_back (info_destroyed (query_logged q (info_created (pool_take w))))
  = query_logged q w.
Proof.
  destruct w as [[|k] i l];
    unfold pool_give_back, info_destroyed, query_logged, info_created, pool_take; simpl;
    congruence.
Qed.

(** Runs a builder up to its size query, given a supported dtype, a
    handle to borrow and successful creations. *)
Ltac run_to_query Hdt Hborrow :=
  unfold_builder; rewrite Hdt;
  cbn -[PackDescriptor to_int to_int64 size_t_mul size_t_add to_size_t];
  match goal with
  | |- context [match pool_available ?w with _ => _ end] =>
      destruct (pool_available w) eqn:?; [contradiction|]
  end;
  rewrite Hborrow;
  cbn -[PackDescriptor to_int to_int64 size_t_mul size_t_add to_size_t].

(** X8. In the LU, QR, Householder, dense eigendecomposition, dense SVD
    and tridiagonal builders the batch count only goes into the blob: the
    size returned or the exception thrown, the query issued and the
    machine left behind are the same for every batch count. *)
Theorem batch_count_not_size_relevant
    (dt : dtype) (b b' m n k : Z) (lower compute_uv full_matrices : bool)
    (v : Vendor) (w : Machine) :
  forget_blob (BuildGetrfDescriptor dt b m n v w)
  = forget_blob (BuildGetrfDescriptor dt b' m n v w) /\
  forget_blob (BuildGeqrfDescriptor dt b m n v w)
  = forget_blob (BuildGeqrfDescriptor dt b' m n v w) /\
  forget_blob (BuildOrgqrDescriptor dt b m n k v w)
  = forget_blob (BuildOrgqrDescriptor dt b' m n k v w) /\
  forget_blob (BuildSyevdDescriptor dt lower b n v w)
  = forget_blob (BuildSyevdDescriptor dt lower b' n v w) /\
  forget_blob (BuildGesvdDescriptor dt b m n compute_uv full_matrices v w)
  = forget_blob (BuildGesvdDescriptor dt b' m n compute_uv full_matrices v w) /\
  forget_blob (BuildSytrdDescriptor dt lower b n v w)
  = forget_blob (BuildSytrdDescriptor dt lower b' n v w).
Proof.
  repeat split; unfold forget_blob; run_builder; reflexivity.
Qed.

(** X9. QR builder: with a supported dtype, a handle to borrow and a
    successful query it issues the one query geqrf(m, n, lda = m) of the
    resolved type, returns the element count that query reported, packs
    (type, b, m, n, lwork), and leaves the machine with that query logged
    and the handle back in the pool. *)
Theorem BuildGeqrfDescriptor_returns
    (dt : dtype) (type : SolverType) (b m n : Z) (v : Vendor) (w : Machine)
    (lwork : Z) :
  DtypeToSolverType dt = Returns type ->
  pool_available w <> 0%nat ->
  Borrow_status v = OkStatus ->
  bufferSize v (geqrf_bufferSize type m n m) = (OkStatus, lwork) ->
  BuildGeqrfDescriptor dt b m n v w
  = (Returns (lwork, PackDescriptor (Build_GeqrfDescriptor type b m n lwork)),
     query_logged (geqrf_bufferSize type m n m) w).
Proof.
  intros Hdt Hpool Hborrow Hq. run_to_query Hdt Hborrow.
  destruct type; unfold_queries; rewrite Hq; cbn;
    rewrite give_back_after_query by congruence; reflexivity.
Qed.

Lemma BuildGeqrfDescriptor_returns_witness :
  BuildGeqrfDescriptor float64 2 6 3 (vendor_ok 10 0) (machine_with 1)
  = (Returns (10, PackDescriptor (Build_GeqrfDescriptor F64 2 6 3 10)),
     query_logged (geqrf_bufferSize F64 6 3 6) (machine_with 1)).
Proof.
  apply (BuildGeqrfDescriptor_returns float64 F64 2 6 3 (vendor_ok 10 0)
           (machine_with 1) 10).
  - reflexivity.
  - simpl. discriminate.
  - reflexivity.
  - reflexivity.
Defined.

(** X10. Householder builder: the one query is orgqr/ungqr(m, n, k,
    lda = m) of the resolved type; the element count it reported is
    returned and packed with (type, b, m, n, k). *)
Theorem BuildOrgqrDescriptor_returns
    (dt : dtype) (type : SolverType) (b m n k : Z) (v : Vendor) (w : Machine)
    (lwork : Z) :
  DtypeToSolverType dt = Returns type ->
  pool_available w <> 0%nat ->
  Borrow_status v = OkStatus ->
  bufferSize v (orgqr_bufferSize type m n k m) = (OkStatus, lwork) ->
  BuildOrgqrDescriptor dt b m n k v w
  = (Returns (lwork, PackDescriptor (Build_OrgqrDescriptor type b m n k lwork)),
     query_logged (orgqr_bufferSize type m n k m) w).
Proof.
  intros Hdt Hpool Hborrow Hq. run_to_query Hdt Hborrow.
  destruct type; unfold_queries; rewrite Hq; cbn;
    rewrite give_back_after_query by congruence; reflexivity.
Qed.

Lemma BuildOrgqrDescriptor_returns_witness :
  BuildOrgqrDescriptor complex64 2 6 3 3 (vendor_ok 10 0) (machine_with 1)
  = (Returns (10, PackDescriptor (Build_OrgqrDescriptor C64 2 6 3 3 10)),
     query_logged (orgqr_bufferSize C64 6 3 3 6) (machine_with 1)).
Proof.
  apply (BuildOrgqrDescriptor_returns complex64 C64 2 6 3 3 (vendor_ok 10 0)
           (machine_with 1) 10).
  - reflexivity.
  - simpl. discriminate.
  - reflexivity.
  - reflexivity.
Defined.

(** X11. Dense eigendecomposition builder: eigenvectors are always asked
    for (there is no argument to switch them off); the fill mode is LOWER
    exactly when [lower] holds and goes both into the query, with
    lda = n, and into the blob. *)
Theorem BuildSyevdDescriptor_returns
    (dt : dtype) (type : SolverType) (lower : bool) (b n : Z)
    (v : Vendor) (w : Machine) (lwork : Z) :
  DtypeToSolverType dt = Returns type ->
  pool_available w <> 0%nat ->
  Borrow_status v = OkStatus ->
  let uplo := if lower then GPUSOLVER_FILL_MODE_LOWER else GPUSOLVER_FILL_MODE_UPPER in
  bufferSize v (syevd_bufferSize type GPUSOLVER_EIG_MODE_VECTOR uplo n n)
  = (OkStatus, lwork) ->
  BuildSyevdDescriptor dt lower b n v w
  = (Returns (lwork, PackDescriptor (Build_SyevdDescriptor type uplo b n lwork)),
     query_logged (syevd_bufferSize type GPUSOLVER_EIG_MODE_VECTOR uplo n n) w).
Proof.
  intros Hdt Hpool Hborrow uplo Hq. run_to_query Hdt Hborrow.
  destruct type; unfold_queries; unfold fill_mode; fold uplo; rewrite Hq; cbn;
    rewrite give_back_after_query by congruence; reflexivity.
Qed.

Lemma BuildSyevdDescriptor_returns_witness :
  BuildSyevdDescriptor complex128 false 2 6 (vendor_ok 10 0) (machine_with 1)
  = (Returns (10, PackDescriptor
                    (Build_SyevdDescriptor C128 GPUSOLVER_FILL_MODE_UPPER 2 6 10)),
     query_logged
       (syevd_bufferSize C128 GPUSOLVER_EIG_MODE_VECTOR GPUSOLVER_FILL_MODE_UPPER 6 6)
       (machine_with 1)).
Proof.
  apply (BuildSyevdDescriptor_returns complex128 C128 false 2 6 (vendor_ok 10 0)
           (machine_with 1) 10).
  - reflexivity.
  - simpl. discriminate.
  - reflexivity.
  - reflexivity.
Defined.

(** X12. Jacobi eigendecomposition builder: a batch count of exactly 1
    takes the per-matrix query, every other batch count (zero and
    negative ones included) the batched query, which also receives the
    batch count; eigenvectors are always asked for and lda = n. After a
    successful call the parameter object created for the query is
    destroyed and the handle is back: the machine differs by the logged
    query only. *)
Theorem BuildSyevjDescriptor_returns
    (dt : dtype) (type : SolverType) (lower : bool) (batch n : Z)
    (v : Vendor) (w : Machine) (lwork : Z) :
  DtypeToSolverType dt = Returns type ->
  pool_available w <> 0%nat ->
  Borrow_status v = OkStatus ->
  CreateSyevjInfo_status v = OkStatus ->
  let uplo := if lower then GPUSOLVER_FILL_MODE_LOWER else GPUSOLVER_FILL_MODE_UPPER in
  let q :=
    if batch =? 1 then syevj_bufferSize type GPUSOLVER_EIG_MODE_VECTOR uplo n n
    else syevjBatched_bufferSize type GPUSOLVER_EIG_MODE_VECTOR uplo n n batch in
  bufferSize v q = (OkStatus, lwork) ->
  BuildSyevjDescriptor dt lower batch n v w
  = (Returns (lwork, PackDescriptor (Build_SyevjDescriptor type uplo batch n lwork)),
     query_logged q w).
Proof.
  intros Hdt Hpool Hborrow Hcreate uplo q Hq. run_to_query Hdt Hborrow.
  rewrite Hcreate. cbn. subst q.
  destruct (batch =? 1); destruct type; unfold_queries; unfold fill_mode; fold uplo;
    rewrite Hq; cbn; rewrite give_back_destroy_after_query by congruence; reflexivity.
Qed.

Lemma BuildSyevjDescriptor_returns_witness :
  BuildSyevjDescriptor float32 true 0 6 (vendor_ok 10 0) (machine_with 1)
  = (Returns (10, PackDescriptor
                    (Build_SyevjDescriptor F32 GPUSOLVER_FILL_MODE_LOWER 0 6 10)),
     query_logged
       (syevjBatched_bufferSize F32 GPUSOLVER_EIG_MODE_VECTOR
          GPUSOLVER_FILL_MODE_LOWER 6 6 0) (machine_with 1)).
Proof.
  apply (BuildSyevjDescriptor_returns float32 F32 true 0 6 (vendor_ok 10 0)
           (machine_with 1) 10).
  - reflexivity.
  - simpl. discriminate.
  - reflexivity.
  - reflexivity.
  - reflexivity.
Defined.

(** X13. Jacobi SVD builder: the eigen mode is VECTOR exactly when
    [compute_uv] holds; the leading dimensions are lda = ldu = m and
    ldv = n; a batch count of exactly 1 takes the per-matrix query, which
    receives [econ], every other batch count the batched query, which
    receives the batch count instead. The mode and [econ] are packed in
    both cases, and on return the parameter object is destroyed. *)
Theorem BuildGesvdjDescriptor_returns
    (dt : dtype) (type : SolverType) (batch m n : Z) (compute_uv : bool) (econ : Z)
    (v : Vendor) (w : Machine) (lwork : Z) :
  DtypeToSolverType dt = Returns type ->
  pool_available w <> 0%nat ->
  Borrow_status v = OkStatus ->
  CreateGesvdjInfo_status v = OkStatus ->
  let jobz :=
    if compute_uv then GPUSOLVER_EIG_MODE_VECTOR else CUSOLVER_EIG_MODE_NOVECTOR in
  let q :=
    if batch =? 1 then gesvdj_bufferSize type jobz econ m n m m n
    else gesvdjBatched_bufferSize type jobz m n m m n batch in
  bufferSize v q = (OkStatus, lwork) ->
  BuildGesvdjDescriptor dt batch m n compute_uv econ v w
  = (Returns (lwork,
              PackDescriptor (Build_GesvdjDescriptor type batch m n lwork jobz econ)),
     query_logged q w).
Proof.
  intros Hdt Hpool Hborrow Hcreate jobz q Hq. run_to_query Hdt Hborrow.
  rewrite Hcreate. cbn. subst q.
  destruct (batch =? 1); destruct type; unfold_queries; fold jobz;
    rewrite Hq; cbn; rewrite give_back_destroy_after_query by congruence; reflexivity.
Qed.

Lemma BuildGesvdjDescriptor_returns_witness :
  BuildGesvdjDescriptor float64 1 6 3 false 1 (vendor_ok 10 0) (machine_with 1)
  = (Returns (10, PackDescriptor
                    (Build_GesvdjDescriptor F64 1 6 3 10 CUSOLVER_EIG_MODE_NOVECTOR 1)),
     query_logged
       (gesvdj_bufferSize F64 CUSOLVER_EIG_MODE_NOVECTOR 1 6 3 6 6 3)
       (machine_with 1)).
Proof.
  apply (BuildGesvdjDescriptor_returns float64 F64 1 6 3 false 1 (vendor_ok 10 0)
           (machine_with 1) 10).
  - reflexivity.
  - simpl. discriminate.
  - reflexivity.
  - reflexivity.
  - reflexivity.
Defined.

(** X14. On the batched path of the Jacobi SVD builder [econ] is not part
    of the size query: for a batch count other than 1 the size returned
    or exception thrown, and the machine left behind, are the same for
    every [econ]. *)
Theorem BuildGesvdjDescriptor_batched_ignores_econ
    (dt : dtype) (batch m n : Z) (compute_uv : bool) (econ econ' : Z)
    (v : Vendor) (w : Machine) :
  batch <> 1 ->
  forget_blob (BuildGesvdjDescriptor dt batch m n compute_uv econ v w)
  = forget_blob (BuildGesvdjDescriptor dt batch m n compute_uv econ' v w).
Proof.
  intros Hb. assert (E : (batch =? 1) = false) by (now apply Z.eqb_neq).
  unfold forget_blob. unfold_builder. rewrite !E.
  cbn -[PackDescriptor]. repeat step_builder; reflexivity.
Qed.

Lemma BuildGesvdjDescriptor_batched_ignores_econ_witness :
  forget_blob (BuildGesvdjDescriptor float32 4 6 3 true 0 (vendor_ok 10 0)
                 (machine_with 1))
  = forget_blob (BuildGesvdjDescriptor float32 4 6 3 true 1 (vendor_ok 10 0)
                   (machine_with 1)).
Proof.
  apply (BuildGesvdjDescriptor_batched_ignores_econ float32 4 6 3 true 0 1
           (vendor_ok 10 0) (machine_with 1)).
  discriminate.
Defined.

(** X15. Tridiagonal builder: the one query is sytrd/hetrd(uplo, n,
    lda = n); the order [n] is packed twice, as the order and as the
    leading dimension. *)
Theorem BuildSytrdDescriptor_returns
    (dt : dtype) (type : SolverType) (lower : bool) (b n : Z)
    (v : Vendor) (w : Machine) (lwork : Z) :
  DtypeToSolverType dt = Returns type ->
  pool_available w <> 0%nat ->
  Borrow_status v = OkStatus ->
  let uplo := if lower then GPUSOLVER_FILL_MODE_LOWER else GPUSOLVER_FILL_MODE_UPPER in
  bufferSize v (sytrd_bufferSize type uplo n n) = (OkStatus, lwork) ->
  BuildSytrdDescriptor dt lower b n v w
  = (Returns (lwork,
              PackDescriptor
                {| sytrd_type := type; sytrd_uplo := uplo; sytrd_batch := b;
                   sytrd_n := n; sytrd_lda := n; sytrd_lwork := lwork |}),
     query_logged (sytrd_bufferSize type uplo n n) w).
Proof.
  intros Hdt Hpool Hborrow uplo Hq. run_to_query Hdt Hborrow.
  destruct type; unfold_queries; unfold fill_mode; fold uplo; rewrite Hq; cbn;
    rewrite give_back_after_query by congruence; reflexivity.
Qed.

Lemma BuildSytrdDescriptor_returns_witness :
  BuildSytrdDescriptor float32 true 2 6 (vendor_ok 10 0) (machine_with 1)
  = (Returns (10,
              PackDescriptor
                {| sytrd_type := F32; sytrd_uplo := GPUSOLVER_FILL_MODE_LOWER;
                   sytrd_batch := 2; sytrd_n := 6; sytrd_lda := 6;
                   sytrd_lwork := 10 |}),
     query_logged (sytrd_bufferSize F32 GPUSOLVER_FILL_MODE_LOWER 6 6)
       (machine_with 1)).
Proof.
  apply (BuildSytrdDescriptor_returns float32 F32 true 2 6 (vendor_ok 10 0)
           (machine_with 1) 10).
  - reflexivity.
  - simpl. discriminate.
  - reflexivity.
  - reflexivity.
Defined.

(** ** The resolver and the Cholesky builder *)

Lemma resolved_entry np_type type :
  DtypeToSolverType np_type = Returns type ->
  In ((kind np_type, itemsize np_type), type) types.
Proof.
  unfold DtypeToSolverType.
  destruct (find (kind np_type, itemsize np_type) types) eqn:E; [|discriminate].
  intros [= <-]. now apply find_Some.
Qed.

Lemma sizeof_elem_itemsize np_type type :
  DtypeToSolverType np_type = Returns type -> sizeof_elem type = itemsize np_type.
Proof.
  intros H. apply resolved_entry in H. unfold types in H. simpl in H.
  destruct H as [H|[H|[H|[H|[]]]]]; inversion H; reflexivity.
Qed.

(** X16. The element width the Cholesky builder multiplies by is the
    itemsize of the dtype it was given, and the resolver is one-to-one:
    two dtypes that resolve to the same element type have the same kind
    and itemsize. *)
Theorem DtypeToSolverType_width_injective (d1 d2 : dtype) (type : SolverType) :
  DtypeToSolverType d1 = Returns type ->
  DtypeToSolverType d2 = Returns type ->
  sizeof_elem type = itemsize d1 /\ d1 = d2.
Proof.
  intros H1 H2. split; [now apply sizeof_elem_itemsize|].
  apply resolved_entry in H1, H2. unfold types in *. simpl in H1, H2.
  destruct d1 as [k1 i1], d2 as [k2 i2]. simpl in *.
  destruct H1 as [H1|[H1|[H1|[H1|[]]]]]; inversion H1; subst;
    destruct H2 as [H2|[H2|[H2|[H2|[]]]]]; inversion H2; subst; reflexivity.
Qed.

Lemma DtypeToSolverType_width_injective_witness :
  sizeof_elem C64 = itemsize complex64 /\
  complex64 = {| kind := "c"; itemsize := 8 |}.
Proof.
  apply (DtypeToSolverType_width_injective complex64 {| kind := "c"; itemsize := 8 |} C64);
    reflexivity.
Defined.

(** X17. Single-matrix Cholesky (b = 1) is the same on both back ends:
    the one query is potrf(uplo, n, lda = n) of the resolved type, where
    the fill mode is LOWER exactly when [lower] holds; when lwork x
    itemsize fits an [int], that byte count is the size returned, and
    (type, uplo, 1, n, lwork) is packed. *)
Theorem BuildPotrfDescriptor_single
    (backend : Backend) (dt : dtype) (type : SolverType) (lower : bool) (n : Z)
    (v : Vendor) (w : Machine) (lwork : Z) :
  DtypeToSolverType dt = Returns type ->
  pool_available w <> 0%nat ->
  Borrow_status v = OkStatus ->
  let uplo := if lower then GPUSOLVER_FILL_MODE_LOWER else GPUSOLVER_FILL_MODE_UPPER in
  bufferSize v (potrf_bufferSize type uplo n n) = (OkStatus, lwork) ->
  is_int (lwork * itemsize dt) ->
  BuildPotrfDescriptor backend dt lower 1 n v w
  = (Returns (lwork * itemsize dt,
              PackDescriptor (Build_PotrfDescriptor type uplo 1 n lwork)),
     query_logged (potrf_bufferSize type uplo n n) w).
Proof.
  intros Hdt Hpool Hborrow uplo Hq Hfit.
  rewrite <- (sizeof_elem_itemsize _ _ Hdt) in *.
  run_to_query Hdt Hborrow.
  destruct type; unfold_queries; unfold fill_mode; fold uplo; rewrite Hq;
    cbn -[PackDescriptor to_int to_int64 size_t_mul size_t_add to_size_t];
    rewrite give_back_after_query by congruence;
    rewrite to_int_size_t_mul, to_int_small by exact Hfit; reflexivity.
Qed.

(** The example of the specification: F64, lower, b = 1, n = 128. *)
Lemma BuildPotrfDescriptor_single_witness :
  BuildPotrfDescriptor HIP float64 true 1 128 (vendor_ok 4096 0) (machine_with 1)
  = (Returns (4096 * itemsize float64,
              PackDescriptor
                (Build_PotrfDescriptor F64 GPUSOLVER_FILL_MODE_LOWER 1 128 4096)),
     query_logged (potrf_bufferSize F64 GPUSOLVER_FILL_MODE_LOWER 128 128)
       (machine_with 1)).
Proof.
  apply (BuildPotrfDescriptor_single HIP float64 F64 true 128 (vendor_ok 4096 0)
           (machine_with 1) 4096).
  - reflexivity.
  - simpl. discriminate.
  - reflexivity.
  - reflexivity.
  - unfold is_int, INT_MIN, INT_MAX. simpl. lia.
Defined.

(** X18. The Cholesky builder does not validate the batch count: on CUDA
    a zero or negative [b] takes the batched path like any [b] other than
    1, so the call returns without a size query; the size returned is
    b x sizeof(pointer) narrowed to [int], which is that product itself,
    zero or negative, whenever the product is not below the least [int]. *)
Theorem BuildPotrfDescriptor_cuda_nonpositive_batch
    (dt : dtype) (type : SolverType) (lower : bool) (b n : Z)
    (v : Vendor) (w : Machine) :
  DtypeToSolverType dt = Returns type ->
  pool_available w <> 0%nat ->
  Borrow_status v = OkStatus ->
  b <= 0 ->
  BuildPotrfDescriptor CUDA dt lower b n v w
  = (Returns (to_int (b * sizeof_pointer),
              PackDescriptor
                (Build_PotrfDescriptor type (fill_mode lower) b n (indeterminate_int v))),
     w) /\
  (INT_MIN <= b * sizeof_pointer ->
   to_int (b * sizeof_pointer) = b * sizeof_pointer /\ b * sizeof_pointer <= 0).
Proof.
  intros Hdt Hpool Hborrow Hb. split.
  - run_to_query Hdt Hborrow.
    destruct (Z.eqb_spec b 1); [lia|].
    cbn -[PackDescriptor to_int to_int64 size_t_mul size_t_add to_size_t].
    rewrite give_back_take by congruence.
    rewrite to_int_size_t_mul_r. reflexivity.
  - intros Hfit. split.
    + apply to_int_small.
      unfold is_int, INT_MIN, INT_MAX, sizeof_pointer in *. lia.
    + unfold sizeof_pointer. lia.
Qed.

Lemma BuildPotrfDescriptor_cuda_nonpositive_batch_witness :
  BuildPotrfDescriptor CUDA float32 false (-3) 16 (vendor_ok 10 5) (machine_with 1)
  = (Returns (to_int (-3 * sizeof_pointer),
              PackDescriptor
                (Build_PotrfDescriptor F32 (fill_mode false) (-3) 16
                   (indeterminate_int (vendor_ok 10 5)))),
     machine_with 1) /\
  (INT_MIN <= -3 * sizeof_pointer ->
   to_int (-3 * sizeof_pointer) = -3 * sizeof_pointer /\ -3 * sizeof_pointer <= 0).
Proof.
  apply (BuildPotrfDescriptor_cuda_nonpositive_batch float32 F32 false (-3) 16
           (vendor_ok 10 5) (machine_with 1)).
  - reflexivity.
  - simpl. discriminate.
  - reflexivity.
  - lia.
Defined.

(** Below that bound the narrowing shows: b = -268435457 asks for
    -2147483656 bytes, handed back as the positive 2147483640. *)
Example potrf_negative_batch_narrowed :
  size_of (BuildPotrfDescriptor CUDA float32 false (-268435457) 16
             (vendor_ok 10 5) (machine_with 1)) = Some 2147483640.
Proof. reflexivity. Qed.

(** ** What a call can throw, and what it depends on *)

(** X19. The exceptions of a call: an invalid-argument exception carries
    the call's own dtype, which the resolver rejected; a runtime error
    never carries an OK status and never comes from the sparse-solve
    builder; an error of creating a parameter object comes from the
    Jacobi builder of that object only. *)
Theorem thrown_exceptions
    (backend : Backend) (c : BuilderCall) (v : Vendor) (w : Machine) (e : exception) :
  fst (call backend c v w) = Throws e ->
  match e with
  | invalid_argument d =>
      d = dtype_of c /\ DtypeToSolverType d = Throws (invalid_argument d)
  | runtime_error callee st =>
      st <> OkStatus /\
      family_of_call c <> Csrlsvqr /\
      match callee with
      | gpusolverDnCreateSyevjInfo_call => family_of_call c = Syevj
      | cusolverDnCreateGesvdjInfo_call => family_of_call c = Gesvdj
      | SolverHandlePool_Borrow => True
      | bufferSize_call _ => True
      end
  end.
Proof.
  destruct c; cbn [call dtype_of family_of_call];
    run_builder; intros H; cbn in H; try discriminate H;
    injection H as <-;
    try (match goal with
         | E : DtypeToSolverType _ = Throws _ |- _ =>
             pose proof (DtypeToSolverType_Throws _ _ E); subst;
             split; [reflexivity | assumption]
         end);
    repeat split; discriminate.
Qed.

Lemma thrown_exceptions_witness :
  NotOk 3 <> OkStatus /\
  family_of_call (build_sytrd_descriptor complex64 true 2 8) <> Csrlsvqr /\
  True.
Proof.
  apply (thrown_exceptions HIP (build_sytrd_descriptor complex64 true 2 8)
           (vendor_query_fails 3) (machine_with 1)
           (runtime_error
              (bufferSize_call (sytrd_bufferSize C64 GPUSOLVER_FILL_MODE_LOWER 8 8))
              (NotOk 3))).
  reflexivity.
Defined.

(** X20. What unassigned memory holds is never observed outside the CUDA
    batched Cholesky path: for every other call, two vendors that give
    the same statuses and the same size-query answers lead to the same
    result, blob included, and the same machine. *)
Theorem indeterminate_int_not_observed
    (backend : Backend) (c : BuilderCall) (v1 v2 : Vendor) (w : Machine) :
  same_answers v1 v2 ->
  (forall dt lower b n,
      c = build_potrf_descriptor dt lower b n -> backend = HIP \/ b = 1) ->
  call backend c v1 w = call backend c v2 w.
Proof.
  intros Hsame Hc. apply call_deterministic; [assumption|].
  destruct c; try reflexivity. cbn [potrf_reads_unassigned].
  destruct backend; [|reflexivity].
  destruct (Hc _ _ _ _ eq_refl) as [E|E]; [discriminate E | rewrite E; reflexivity].
Qed.

Lemma indeterminate_int_not_observed_witness :
  call CUDA (build_potrf_descriptor float32 true 1 8) (vendor_ok 10 0) (machine_with 1)
  = call CUDA (build_potrf_descriptor float32 true 1 8) (vendor_ok 10 99) (machine_with 1).
Proof.
  apply (indeterminate_int_not_observed CUDA (build_potrf_descriptor float32 true 1 8)
           (vendor_ok 10 0) (vendor_ok 10 99) (machine_with 1)).
  - repeat split.
  - intros dt lower b n [= _ _ <- _]. right. reflexivity.
Defined.

(** ** Registrations and module functions *)

Lemma length_append_string (p s : string) :
  String.length (p ++ s) = (String.length p + String.length s)%nat.
Proof. induction p as [|c p IH]; simpl; [reflexivity | now rewrite IH]. Qed.

Lemma eqb_append_l (p a b : string) :
  String.eqb (p ++ a) (p ++ b) = String.eqb a b.
Proof.
  induction p as [|c p IH]; simpl; [reflexivity|].
  now rewrite Ascii.eqb_refl.
Qed.

(** A name built from the prefix differs from a fixed name whose character
    at the place where the suffix would start is not the suffix's first. *)
Lemma append_neq_literal (p s t : string) :
  get 0 s <> get (String.length t - String.length s) t ->
  (p ++ s)%string <> t.
Proof.
  intros N E. subst t. apply N.
  rewrite length_append_string, Nat.add_sub.
  apply (append_correct2 p s 0).
Qed.

Lemma eqb_append_literal (p s t : string) :
  get 0 s <> get (String.length t - String.length s) t ->
  String.eqb (p ++ s) t = false.
Proof. intros N. apply String.eqb_neq. now apply append_neq_literal. Qed.

(** Decides the name comparisons met when running [setitem] and
    [getitem] on the registrations. *)
Ltac compare_names :=
  repeat match goal with
    | |- context [String.eqb (?p ++ ?a) (?p ++ ?b)] =>
        rewrite (eqb_append_l p a b);
        let r := eval vm_compute in (String.eqb a b) in
        change (String.eqb a b) with r; cbn [setitem getitem]
    | |- context [String.eqb (?p ++ ?a) ?t] =>
        rewrite (eqb_append_literal p a t) by (vm_compute; discriminate);
        cbn [setitem getitem]
    end.

(** No assignment of [Registrations] replaces an earlier one, whatever
    the prefix: the dictionary has one entry per assignment. *)
Lemma Registrations_entries (backend : Backend) (prefix : string) :
  Registrations backend prefix
  = [ ((prefix ++ "solver_potrf")%string, Potrf);
      ((prefix ++ "solver_getrf")%string, Getrf);
      ((prefix ++ "solver_geqrf")%string, Geqrf);
      ((prefix ++ "solver_orgqr")%string, Orgqr);
      ((prefix ++ "solver_syevd")%string, Syevd);
      ((prefix ++ "solver_syevj")%string, Syevj);
      ((prefix ++ "solver_gesvd")%string, Gesvd);
      ((prefix ++ "solver_sytrd")%string, Sytrd) ]
    ++ match backend with
       | CUDA => [ ("cusolver_csrlsvqr"%string, Csrlsvqr);
                   ("cusolver_gesvdj"%string, Gesvdj) ]
       | HIP => []
       end.
Proof.
  unfold Registrations. cbn [setitem]. compare_names.
  destruct backend; [|reflexivity].
  cbn [setitem]. compare_names. reflexivity.
Qed.

(** X21. Whatever the prefix, the names [Registrations] assigns are
    pairwise different, so no kernel is overwritten: there are eight
    entries without CUDA and ten with it, and looking up the name of an
    entry gives the kernel of that entry. *)
Theorem Registrations_names_distinct (backend : Backend) (prefix : string) :
  NoDup (map fst (Registrations backend prefix)) /\
  List.length (Registrations backend prefix)
  = (match backend with CUDA => 10 | HIP => 8 end)%nat /\
  forall name kernel,
    In (name, kernel) (Registrations backend prefix) ->
    getitem (Registrations backend prefix) name = Some kernel.
Proof.
  rewrite Registrations_entries. split; [|split].
  - destruct backend; cbn [map fst app];
      repeat (apply NoDup_cons; [cbn [In]; intros H|]); try apply NoDup_nil;
      repeat (destruct H as [H|H]); try contradiction;
      first [ apply String.eqb_eq in H; rewrite eqb_append_l in H;
              vm_compute in H; discriminate H
            | symmetry in H; revert H; apply append_neq_literal;
              vm_compute; discriminate
            | revert H; apply append_neq_literal; vm_compute; discriminate
            | discriminate H ].
  - destruct backend; reflexivity.
  - intros name kernel H. destruct backend; cbn [app In] in H;
      repeat (destruct H as [H|H]); try contradiction;
      injection H as <- <-; cbn [app getitem]; compare_names;
      rewrite ?String.eqb_refl; reflexivity.
Qed.

(** X22. The module defines a descriptor builder for exactly the
    operation families that have a registered kernel: eight families
    without CUDA, and the sparse solve and the Jacobi SVD in addition
    with it. *)
Theorem builders_match_registrations
    (backend : Backend) (prefix : string) (f : Family) :
  In (builder_function f) (map snd (PYBIND11_MODULE backend)) <->
  In f (map snd (Registrations backend prefix)).
Proof.
  rewrite Registrations_entries. unfold PYBIND11_MODULE.
  destruct backend; cbn [map snd app In]; split; intros H;
    repeat (destruct H as [H|H]); try contradiction; try discriminate H;
    try (injection H as <-); subst; tauto.
Qed.
